(** * OpenBenchPublisher web UI: job polling, submission guards and proxy routes

  A shallow embedding of the parts of the Next.js client that deal with
  long-running jobs:

  - [ChatInterface.pollSamplingStatus] (web-ui-next/src/components/ChatInterface.tsx),
    the client-side poller;
  - [BuildForm.planAndSample], the submission form of the build tool;
  - the route handlers that proxy [GET /api/download-progress] and
    [POST /api/start-full-run] to the FastAPI backend.

  The backend itself (job store, request coordinator) is not part of the
  web UI sources; where a statement needs it, it is modelled from the
  written specification and marked as such. *)

From Stdlib Require Import ZArith List Bool Lia.
From stdpp Require Import base option strings pretty gmap stringmap list.

Local Open Scope string_scope.
Local Open Scope Z_scope.

(** ** JavaScript values as the code reads them *)

Module JS.

(** A property read on a parsed JSON object: the property can be missing
    ([Undefined]), hold JSON [null], or hold a value of the expected type.
    Numbers are the integer counts the backend reports, in the range where
    a double holds every integer (up to 2^53 in magnitude): there
    [JSON.parse] reads them exactly and a template literal prints all
    their digits. *)
Inductive field (A : Type) : Type :=
| Undefined
| Null
| Val (a : A).
Arguments Undefined {A}.
Arguments Null {A}.
Arguments Val {A} a.

(** ToNumber on a numeric property; [None] is NaN. *)
Definition to_number (x : field Z) : option Z :=
  match x with
  | Undefined => None
  | Null => Some 0
  | Val z => Some z
  end.

(** [a >= b]: false as soon as one side is NaN. *)
Definition ge (a b : field Z) : bool :=
  match to_number a, to_number b with
  | Some x, Some y => y <=? x
  | _, _ => false
  end.

(** [x || 0] on a numeric property. *)
Definition num_or_zero (x : field Z) : Z :=
  match x with
  | Val z => z (* a falsy 0 is replaced by 0 *)
  | _ => 0
  end.

(** [x || d] on a string property: the empty string is falsy. *)
Definition str_or (x : field string) (d : string) : string :=
  match x with
  | Val s => if decide (s = "") then d else s
  | _ => d
  end.

(** [x === s] for a string literal [s]. *)
Definition strict_eq_str (x : field string) (s : string) : bool :=
  match x with
  | Val s' => bool_decide (s' = s)
  | _ => false
  end.

(** Template-literal interpolation [`${x}`] of a numeric property. *)
Definition interpolate (x : field Z) : string :=
  match x with
  | Undefined => "undefined"
  | Null => "null"
  | Val z => pretty z
  end.

(** A property whose type the code does not fix, such as the [detail] of
    a FastAPI error, which is a string for an [HTTPException] and a list
    for a validation error: a string, or any other JSON value but [null],
    given by its JSON text and sorted by what [||] and [!] make of it.
    [Truthy] is an array, an object, [true] or a number other than zero;
    [Falsy] is [false] or zero. *)
Inductive jsvalue : Type :=
| Text (s : string)
| Truthy (json : string)
| Falsy (json : string).

#[global] Instance jsvalue_eq_dec : EqDecision jsvalue.
Proof. solve_decision. Defined.

(** ToBoolean *)
Definition truthy (v : jsvalue) : bool :=
  match v with
  | Text s => negb (bool_decide (s = ""))
  | Truthy _ => true
  | Falsy _ => false
  end.

(** [x || d] on a property of any type, for a string literal [d]. *)
Definition value_or (x : field jsvalue) (d : string) : jsvalue :=
  match x with
  | Val v => if truthy v then v else Text d
  | _ => Text d
  end.

(** [hay.includes(needle)]. *)
Fixpoint includes (needle hay : string) : bool :=
  String.prefix needle hay ||
  match hay with
  | EmptyString => false
  | String _ rest => includes needle rest
  end.

(** [!x] for the nullable string that [URLSearchParams.get] returns. *)
Definition falsy_str (x : option string) : bool :=
  match x with
  | None => true
  | Some s => bool_decide (s = "")
  end.

Definition newline : string := String (Ascii.ascii_of_nat 10) EmptyString.

End JS.

Import JS.

(** ** HTTP as seen through [fetch] *)

Inductive Method := GET | POST | DELETE.

#[global] Instance Method_eq_dec : EqDecision Method.
Proof. solve_decision. Defined.

(** A [fetch] call: method (GET when the init object gives none), URL, the
    headers and cache mode of the init object, and the body of type [B]. *)
Record HttpRequest (B : Type) := {
  req_method : Method;
  req_url : string;
  req_headers : list (string * string);
  req_cache : option string;
  req_body : option B
}.
Arguments req_method {B} _.
Arguments req_url {B} _.
Arguments req_headers {B} _.
Arguments req_cache {B} _.
Arguments req_body {B} _.

(** The result of [await x.json()]: the promise rejects with an error, or
    gives the parsed value. For the body of a response the value [null]
    is set apart as [RespondedNull] below; the body of an incoming
    request is passed on by the routes without a property read, [null]
    like any other value of [D]. *)
Inductive Parsed (D : Type) : Type :=
| SyntaxError (message : string)
| Json (data : D).
Arguments SyntaxError {D} message.
Arguments Json {D} data.

(** What an awaited [fetch] followed by [res.json()] can give: the fetch
    promise rejects, or a response arrives with a status code and a body.
    [D] describes the parsed bodies whose properties can be read. The body
    that is the JSON value [null] is a case of its own: [res.json()] gives
    [null], and the first property read on it throws a TypeError, whose
    message in the engine that runs the handler is [type_error]. *)
Inductive FetchOutcome (D : Type) : Type :=
| NetworkError (message : string)
| Responded (status : Z) (body : Parsed D)
| RespondedNull (status : Z) (type_error : string).
Arguments NetworkError {D} message.
Arguments Responded {D} status body.
Arguments RespondedNull {D} status type_error.

(** [res.ok] *)
Definition ok_status (status : Z) : bool := (200 <=? status) && (status <=? 299).

(** A handler with at most one awaited [fetch]: it either returns at once
    or issues a request and continues with what the fetch gives. *)
Inductive Handler (B D R : Type) : Type :=
| Return (result : R)
| Await (request : HttpRequest B) (continue : FetchOutcome D -> R).
Arguments Return {B D R} result.
Arguments Await {B D R} request continue.

(** Runs a handler against a server with state [S]. *)
Definition serve {S B D R} (server : S -> HttpRequest B -> S * FetchOutcome D)
    (st : S) (h : Handler B D R) : S * R :=
  match h with
  | Return r => (st, r)
  | Await req k => let '(st', out) := server st req in (st', k out)
  end.

(** The requests a handler sends. *)
Definition sent {B D R} (h : Handler B D R) : list (HttpRequest B) :=
  match h with
  | Return _ => []
  | Await req _ => [req]
  end.

(** ** The client-side poller: [pollSamplingStatus] in ChatInterface.tsx *)

Module ChatInterface.

Inductive Role := user | assistant.

Record DatasetPlan := {
  plan_action : string;
  plan_query : string;
  plan_classes : list string;
  plan_total_items : Z;
  plan_data_type : string
}.

Record Message := {
  msg_id : string;
  msg_role : Role;
  msg_content : string;
  msg_timestamp : string;
  msg_plan : option DatasetPlan;
  msg_request_id : option string
}.

Record Chat := {
  chat_id : string;
  chat_title : string;
  chat_messages : list Message;
  chat_createdAt : string
}.

Record SamplingStatus := {
  request_id : string;
  status : string;
  progress : Z;
  total : Z;
  samples : field (list string)
}.

(** The parsed body of [GET /api/download-progress] with the four
    properties the poller reads. The body is a JSON object (or any JSON
    value other than [null], whose property reads all give [undefined]);
    a body that is [null] is the [RespondedNull] outcome. *)
Record ProgressData := {
  data_status : field string;
  data_downloaded : field Z;
  data_total : field Z;
  data_samples : field (list string)
}.

(** Values the callback takes from the environment when it builds a
    message: [Date.now()], [Math.random().toString(36).substr(2, 9)] and
    [new Date().toISOString()]. *)
Record Stamp := {
  date_now : Z;
  random36 : string;
  iso_now : string
}.

(** The React state the component renders. *)
Record UI := {
  samplingStatus : gmap string SamplingStatus;
  chats : list Chat
}.

(** The browser's timer table entries owned by one [pollSamplingStatus]
    call. *)
Inductive Timer :=
| SetInterval (period : Z)
| SetTimeout (delay : Z).

Definition is_interval (t : Timer) : bool :=
  match t with SetInterval _ => true | SetTimeout _ => false end.

Definition is_timeout (t : Timer) : bool :=
  match t with SetInterval _ => false | SetTimeout _ => true end.

Record World := {
  ui : UI;
  timers : list Timer;
  in_flight : nat;              (* callbacks suspended at [await fetch] *)
  requests : list (HttpRequest Empty_set);  (* fetches issued so far, oldest first *)
  console : list string         (* console.error lines *)
}.

Definition interval_active (w : World) : bool := existsb is_interval (timers w).
Definition timeout_pending (w : World) : bool := existsb is_timeout (timers w).

Definition with_ui (f : UI -> UI) (w : World) : World :=
  {| ui := f (ui w); timers := timers w; in_flight := in_flight w;
     requests := requests w; console := console w |}.

Definition with_timers (f : list Timer -> list Timer) (w : World) : World :=
  {| ui := ui w; timers := f (timers w); in_flight := in_flight w;
     requests := requests w; console := console w |}.

Definition setSamplingStatus (f : gmap string SamplingStatus -> gmap string SamplingStatus)
    (w : World) : World :=
  with_ui (fun u => {| samplingStatus := f (samplingStatus u); chats := chats u |}) w.

Definition setChats (f : list Chat -> list Chat) (w : World) : World :=
  with_ui (fun u => {| samplingStatus := samplingStatus u; chats := f (chats u) |}) w.

Definition clearInterval (w : World) : World :=
  with_timers (filter (fun t => is_interval t = false)) w.

Definition clearTimeout (w : World) : World :=
  with_timers (filter (fun t => is_timeout t = false)) w.

Definition console_error (line : string) (w : World) : World :=
  {| ui := ui w; timers := timers w; in_flight := in_flight w;
     requests := requests w; console := console w ++ [line] |}.

Definition issue (r : HttpRequest Empty_set) (w : World) : World :=
  {| ui := ui w; timers := timers w; in_flight := S (in_flight w);
     requests := requests w ++ [r]; console := console w |}.

Definition settle_one (w : World) : World :=
  {| ui := ui w; timers := timers w; in_flight := Nat.pred (in_flight w);
     requests := requests w; console := console w |}.

Section Poller.

(** The two arguments of [pollSamplingStatus], captured by its closures. *)
Variables (requestId chatId : string).

Definition POLL_INTERVAL_MS : Z := 2000.
Definition POLL_TIMEOUT_MS : Z := 300000.

Definition poll_request : HttpRequest Empty_set :=
  {| req_method := GET;
     req_url := "/api/download-progress?request_id=" +:+ requestId;
     req_headers := [];
     req_cache := None;
     req_body := None |}.

(** The object stored under [requestId] by the first state update. *)
Definition observed_status (data : ProgressData) : SamplingStatus :=
  {| request_id := requestId;
     status := str_or (data_status data) "running";
     progress := num_or_zero (data_downloaded data);
     total := num_or_zero (data_total data);
     samples := data_samples data |}.

(** [data.status === 'completed' || data.downloaded >= data.total] *)
Definition stop_condition (data : ProgressData) : bool :=
  strict_eq_str (data_status data) "completed"
  || ge (data_downloaded data) (data_total data).

Definition completion_marker : string := "Dataset sampling completed".

Definition completionMessage (data : ProgressData) (st : Stamp) : Message :=
  {| msg_id := "msg-" +:+ pretty (date_now st) +:+ "-" +:+ random36 st;
     msg_role := assistant;
     msg_content :=
       "âœ… " +:+ completion_marker +:+ "! " +:+ interpolate (data_downloaded data)
       +:+ " samples ready." +:+ newline +:+ newline
       +:+ "ðŸ“‚ Go to the **Datasets** tab to review samples and start the full download when ready.";
     msg_timestamp := iso_now st;
     msg_plan := None;
     msg_request_id := Some requestId |}.

Definition is_completion_msg (m : Message) : bool :=
  includes completion_marker (msg_content m)
  && bool_decide (msg_request_id m = Some requestId).

Definition hasCompletionMsg (chat : Chat) : bool :=
  existsb is_completion_msg (chat_messages chat).

(** The updater passed to [setChats] once the stop condition holds. *)
Definition add_completion (completion : Message) (prevChats : list Chat) : list Chat :=
  map (fun chat =>
         if bool_decide (chat_id chat = chatId) then
           if hasCompletionMsg chat then chat
           else {| chat_id := chat_id chat;
                   chat_title := chat_title chat;
                   chat_messages := chat_messages chat ++ [completion];
                   chat_createdAt := chat_createdAt chat |}
         else chat)
      prevChats.

(** The body of the interval callback after [await fetch(...)]. Every
    throw inside the [try] ends in the [catch], which logs and clears the
    interval. For a body that is [null] the throw is the read of
    [data.status] in the stop test; the updater handed to
    [setSamplingStatus] just before reads the same properties only when
    React applies it, and fails there, so the stored status stays as it
    was. *)
Definition on_settled (r : FetchOutcome ProgressData) (st : Stamp) (w : World) : World :=
  match r with
  | NetworkError _ => clearInterval (console_error "Polling error:" w)
  | Responded code body =>
      if ok_status code then
        match body with
        | SyntaxError _ => clearInterval (console_error "Polling error:" w)
        | Json data =>
            let w1 := setSamplingStatus (insert requestId (observed_status data)) w in
            if stop_condition data then
              setChats (add_completion (completionMessage data st)) (clearInterval w1)
            else w1
        end
      else w
  | RespondedNull code _ =>
      if ok_status code then clearInterval (console_error "Polling error:" w) else w
  end.

(** What can happen to a running poller. *)
Inductive Event :=
| IntervalFires                                              (* the 2000 ms timer fires *)
| FetchSettles (r : FetchOutcome ProgressData) (st : Stamp)  (* an awaited fetch settles *)
| TimeoutFires.                                              (* the 300000 ms timer fires *)

Definition step (w : World) (e : Event) : World :=
  match e with
  | IntervalFires =>
      if interval_active w then issue poll_request w else w
  | FetchSettles r st =>
      match in_flight w with
      | O => w
      | S _ => on_settled r st (settle_one w)
      end
  | TimeoutFires =>
      if timeout_pending w then clearInterval (clearTimeout w) else w
  end.

Definition run (w : World) (es : list Event) : World := fold_left step es w.

(** [pollSamplingStatus(requestId, chatId)]: registers the interval and the
    give-up timer and returns. *)
Definition pollSamplingStatus (u : UI) : World :=
  {| ui := u;
     timers := [SetInterval POLL_INTERVAL_MS; SetTimeout POLL_TIMEOUT_MS];
     in_flight := 0;
     requests := [];
     console := [] |}.

End Poller.

End ChatInterface.

(** ** The build form: [planAndSample] in BuildForm *)

Module BuildForm.

(** Text typed into the query box, as UTF-16 code units. *)
Definition jsstring := list N.

(** ECMAScript WhiteSpace and LineTerminator code points, the ones
    [String.prototype.trim] strips. *)
Definition is_white_space (c : N) : bool :=
  (bool_decide (c ∈ [9; 10; 11; 12; 13; 32; 160; 5760; 8232; 8233; 8239; 8287; 12288; 65279]%N)
   || ((8192 <=? c) && (c <=? 8202)))%N.

Fixpoint trimStart (s : jsstring) : jsstring :=
  match s with
  | [] => []
  | c :: rest => if is_white_space c then trimStart rest else s
  end.

Definition trim (s : jsstring) : jsstring :=
  rev (trimStart (rev (trimStart s))).

(** [!s] for a string: only the empty string is falsy. *)
Definition is_empty (s : jsstring) : bool :=
  match s with [] => true | _ => false end.

(** The component state ([useState] cells). [total] is what
    [parseInt(e.target.value, 10)] stored: an integer or NaN ([None]). *)
Record FormState := {
  query : jsstring;
  total : option Z;
  type : string;
  loading : bool;
  status : jsvalue
}.

Definition initial : FormState :=
  {| query := []; total := Some 50; type := "auto"; loading := false;
     status := Text "Awaiting input..." |}.

(** The JSON body of [POST /api/plan-and-sample]; [JSON.stringify] writes
    NaN as [null] ([None]). *)
Record PlanBody := {
  body_query : jsstring;
  body_total_items : option Z;
  body_data_type : string
}.

(** The parsed response body with the properties the form reads.
    [resp_plan_classes] is [None] when [data.plan.classes.length] throws,
    [resp_samples] is [None] when [data.samples.length] throws. *)
Record PlanData := {
  resp_detail : field jsvalue;
  resp_plan_classes : option (list string);
  resp_samples : option (list string)
}.

(** [setStatus] with a string, and with a value that need not be one. *)
Definition setStatusValue (v : jsvalue) (s : FormState) : FormState :=
  {| query := query s; total := total s; type := type s; loading := loading s;
     status := v |}.

Definition setStatus (msg : string) (s : FormState) : FormState :=
  setStatusValue (Text msg) s.

Definition setLoading (b : bool) (s : FormState) : FormState :=
  {| query := query s; total := total s; type := type s; loading := b;
     status := status s |}.

Definition plan_request (s : FormState) : HttpRequest PlanBody :=
  {| req_method := POST;
     req_url := "/api/plan-and-sample";
     req_headers := [("Content-Type", "application/json")];
     req_cache := None;
     req_body := Some {| body_query := query s;
                         body_total_items := total s;
                         body_data_type := type s |} |}.

(** The state shown while the request is in flight. *)
Definition submitting (s : FormState) : FormState :=
  setStatus "Planning and sampling via Dagster..." (setLoading true s).

Section PlanAndSample.

(** Text of the TypeError raised by a property read on [undefined]. *)
Variable type_error_message : string.

(** [planAndSample]: the final state and the arguments [onPlanAndSample]
    was called with, [None] standing for [null]. *)
Definition planAndSample (s : FormState)
    : Handler PlanBody PlanData (FormState * list (option PlanData)) :=
  if is_empty (trim (query s)) then
    Return (setStatus "Please enter a query." s, [])
  else
    Await (plan_request s) (fun out =>
      let finally st := setLoading false st in
      match out with
      | NetworkError msg => (finally (setStatus ("Error: " +:+ msg) (submitting s)), [])
      | Responded code body =>
          match body with
          | SyntaxError msg => (finally (setStatus ("Error: " +:+ msg) (submitting s)), [])
          | Json data =>
              if negb (ok_status code) then
                (finally (setStatusValue (value_or (resp_detail data) "Failed to run planner.")
                            (submitting s)), [])
              else
                match resp_plan_classes data, resp_samples data with
                | Some classes, Some smp =>
                    let n := match length classes with O => 1%nat | k => k end in
                    (finally (setStatus
                                ("Planned " +:+ pretty n +:+ " classes, sampled "
                                 +:+ pretty (length smp) +:+ " items.")
                                (submitting s)), [Some data])
                | _, _ =>
                    (finally (setStatus ("Error: " +:+ type_error_message) (submitting s)),
                     [Some data])
                end
          end
      | RespondedNull code msg =>
          (finally (setStatus ("Error: " +:+ msg) (submitting s)),
           if ok_status code then [None] else [])
      end).

End PlanAndSample.

End BuildForm.

(** ** Route handlers that proxy to the FastAPI backend *)

Module Routes.

Record NextResponse (P : Type) := {
  status : Z;
  payload : P
}.
Arguments status {P} _.
Arguments payload {P} _.

(** The JSON a proxy route answers with: [{ error }] or [{ detail }] with
    a string, the same two with a value of the backend that is not a
    string, the backend's own data passed on, or the [null] that the
    backend's body was. *)
Inductive ProxyPayload (D : Type) : Type :=
| ErrorJson (error : string)
| DetailJson (detail : string)
| Forwarded (data : D)
| ErrorValue (error : jsvalue)
| DetailValue (detail : jsvalue)
| ForwardedNull.
Arguments ErrorJson {D} error.
Arguments DetailJson {D} detail.
Arguments Forwarded {D} data.
Arguments ErrorValue {D} error.
Arguments DetailValue {D} detail.
Arguments ForwardedNull {D}.

(** [{ error: v }] and [{ detail: v }] for a value [v] of any type. *)
Definition error_json {D} (v : jsvalue) : ProxyPayload D :=
  match v with
  | Text s => ErrorJson s
  | _ => ErrorValue v
  end.

Definition detail_json {D} (v : jsvalue) : ProxyPayload D :=
  match v with
  | Text s => DetailJson s
  | _ => DetailValue v
  end.

(** [new Response(body, { status })] with a body accepts a status from 200
    to 599 that is not a null-body status, and throws otherwise. *)
Definition accepts_status (code : Z) : bool :=
  (200 <=? code) && (code <=? 599)
  && negb (bool_decide (code ∈ [204; 205; 304])).

(** [NextResponse.json(payload, { status })] inside a [try] whose [catch]
    answers [fallback]. *)
Definition json_or_catch {P} (code : Z) (p : P) (fallback : NextResponse P) : NextResponse P :=
  if accepts_status code then {| status := code; payload := p |} else fallback.

(** [searchParams.get(name)]: the first value under [name], or [null]. *)
Fixpoint searchParams_get (name : string) (params : list (string * string)) : option string :=
  match params with
  | [] => None
  | (k, v) :: rest => if bool_decide (k = name) then Some v else searchParams_get name rest
  end.

Section DownloadProgress.

Context {D : Type}.

Definition connect_failed : NextResponse (ProxyPayload D) :=
  {| status := 500; payload := ErrorJson "Failed to connect to backend" |}.

Definition progress_upstream (requestId : string) : HttpRequest Empty_set :=
  {| req_method := GET;
     req_url := "http://localhost:8000/api/download-progress?request_id=" +:+ requestId;
     req_headers := [];
     req_cache := Some "no-store";
     req_body := None |}.

(** [GET /api/download-progress], given the query parameters of the URL. *)
Definition GET_download_progress (searchParams : list (string * string))
    : Handler Empty_set D (NextResponse (ProxyPayload D)) :=
  let requestId := searchParams_get "request_id" searchParams in
  match requestId with
  | Some rid =>
      if falsy_str requestId then
        Return {| status := 400; payload := ErrorJson "request_id parameter is required" |}
      else
        Await (progress_upstream rid) (fun out =>
          match out with
          | NetworkError _ => connect_failed
          | Responded code body =>
              if negb (ok_status code) then
                json_or_catch code (ErrorJson "Failed to fetch download progress") connect_failed
              else
                match body with
                | SyntaxError _ => connect_failed
                | Json data => {| status := 200; payload := Forwarded data |}
                end
          | RespondedNull code _ =>
              if negb (ok_status code) then
                json_or_catch code (ErrorJson "Failed to fetch download progress") connect_failed
              else {| status := 200; payload := ForwardedNull |}
          end)
  | None =>
      Return {| status := 400; payload := ErrorJson "request_id parameter is required" |}
  end.

End DownloadProgress.

(** The body the components post to [/api/start-full-run]
    (FullDownload.tsx, ChatInterface.tsx, DatasetCard.tsx). *)
Record StartRunBody := {
  body_request_id : string;
  body_persist : bool
}.

(** The body FastAPI answers [POST /api/start-full-run] with. *)
Record StartRunData := {
  run_detail : field jsvalue;
  run_dagster_run_id : field string;
  run_request_id : field string
}.

Section StartFullRun.

(** [B] is the JSON body of the incoming request; the route passes it on
    without looking inside. *)
Context {B : Type}.

(** [process.env.FASTAPI_URL] *)
Variable FASTAPI_URL : option string.

(** Text of the error the Response constructor throws for a status it
    does not accept. *)
Variable response_error_message : Z -> string.

Definition fastapi_base : string :=
  if falsy_str FASTAPI_URL then "http://localhost:8000" else default "" FASTAPI_URL.

Definition full_run_upstream (body : B) : HttpRequest B :=
  {| req_method := POST;
     req_url := fastapi_base +:+ "/api/start-full-run";
     req_headers := [("Content-Type", "application/json")];
     req_cache := None;
     req_body := Some body |}.

Definition caught (message : string) : NextResponse (ProxyPayload StartRunData) :=
  {| status := 500; payload := DetailJson message |}.

(** [POST /api/start-full-run], given what [request.json()] gives. *)
Definition POST_start_full_run (body : Parsed B)
    : Handler B StartRunData (NextResponse (ProxyPayload StartRunData)) :=
  match body with
  | SyntaxError msg => Return (caught msg)
  | Json b =>
      Await (full_run_upstream b) (fun out =>
        match out with
        | NetworkError msg => caught msg
        | Responded code rbody =>
            match rbody with
            | SyntaxError msg => caught msg
            | Json data =>
                if negb (ok_status code) then
                  json_or_catch code (detail_json (value_or (run_detail data) "FastAPI error"))
                    (caught (response_error_message code))
                else {| status := 200; payload := Forwarded data |}
            end
        | RespondedNull code msg =>
            if negb (ok_status code) then caught msg
            else {| status := 200; payload := ForwardedNull |}
        end)
  end.

End StartFullRun.

End Routes.

(** ** The backend, from the written specification *)

Module Backend.

Inductive JobKind := sample | full_download.
Inductive JobStatus := pending | running | completed | error.

#[global] Instance JobKind_eq_dec : EqDecision JobKind.
Proof. solve_decision. Defined.

#[global] Instance JobStatus_eq_dec : EqDecision JobStatus.
Proof. solve_decision. Defined.

(** Modelled from the spec: the Job record of the data model (section 3).
    The job store lives in the FastAPI backend, which is not among the
    web UI sources. *)
Record Job := {
  job_request_id : string;
  job_kind : JobKind;
  job_status : JobStatus;
  job_progress : Z;
  job_total : Z;
  job_result_ref : option string;
  job_error_message : option string;
  job_created_at : Z;
  job_updated_at : Z
}.

(** Modelled from the spec: the backing store of section 4.1, keyed by
    request id, with the clock that stamps [created_at]. The store is
    taken to be reachable. *)
Record State := {
  jobs : gmap string Job;
  now : Z
}.

Inductive Failure := NotFound | InvalidTransition | NotReady.

Definition failure_name (f : Failure) : string :=
  match f with
  | NotFound => "NotFound"
  | InvalidTransition => "InvalidTransition"
  | NotReady => "NotReady"
  end.

Definition status_name (s : JobStatus) : string :=
  match s with
  | pending => "pending"
  | running => "running"
  | completed => "completed"
  | error => "error"
  end.

(** Modelled from the spec: [create(kind, total_hint)] of the Job Store
    (section 4.1): a fresh id, status pending, progress 0, total the hint. *)
Definition create (kind : JobKind) (total_hint : Z) (st : State) : string * State :=
  let rid := fresh_string "job" (jobs st) in
  (rid,
   {| jobs := <[rid := {| job_request_id := rid;
                          job_kind := kind;
                          job_status := pending;
                          job_progress := 0;
                          job_total := total_hint;
                          job_result_ref := None;
                          job_error_message := None;
                          job_created_at := now st;
                          job_updated_at := now st |}]> (jobs st);
      now := now st + 1 |}).

(** Modelled from the spec: [get(request_id)] of the Job Store, also the
    coordinator's [get_status] (a pure read). *)
Definition get (rid : string) (st : State) : Failure + Job :=
  match jobs st !! rid with
  | Some j => inr j
  | None => inl NotFound
  end.

(** The condition [submit_full_download] requires: [rid] names an existing
    sample job in completed status. *)
Definition sample_completed (rid : string) (st : State) : bool :=
  match jobs st !! rid with
  | Some j => bool_decide (job_kind j = sample) && bool_decide (job_status j = completed)
  | None => false
  end.

(** Modelled from the spec: [submit_full_download(request_id, persist)] of
    the Request Coordinator (section 4.2). The persistence worker it
    dispatches is an external collaborator; the new job is returned in
    its initial state. *)
Definition submit_full_download (rid : string) (persist : bool) (st : State)
    : (Failure + string) * State :=
  if sample_completed rid st then
    let '(handle, st') := create full_download 0 st in (inr handle, st')
  else (inl NotReady, st).

(** The suffix of [s] after the first occurrence of [marker]. *)
Fixpoint after (marker s : string) : option string :=
  if String.prefix marker s then
    Some (String.substring (String.length marker) (String.length s) s)
  else
    match s with
    | EmptyString => None
    | String _ rest => after marker rest
    end.

Section Http.

(** The status code the backend answers a refused request with. *)
Variable refusal_code : Z.

(** Modelled from the spec: [POST /start-full-run] of section 6, answering
    [dagster_run_id] and [request_id], or the failure as [detail]. *)
Definition start_full_run (st : State) (req : HttpRequest Routes.StartRunBody)
    : State * FetchOutcome Routes.StartRunData :=
  match req_body req with
  | Some b =>
      match submit_full_download (Routes.body_request_id b) (Routes.body_persist b) st with
      | (inr handle, st') =>
          (st', Responded 200 (Json {| Routes.run_detail := Undefined;
                                       Routes.run_dagster_run_id := Val handle;
                                       Routes.run_request_id := Val (Routes.body_request_id b) |}))
      | (inl f, st') =>
          (st', Responded refusal_code
                  (Json {| Routes.run_detail := Val (Text (failure_name f));
                           Routes.run_dagster_run_id := Undefined;
                           Routes.run_request_id := Undefined |}))
      end
  | None =>
      (st, Responded refusal_code
             (Json {| Routes.run_detail := Val (Text "request body required");
                      Routes.run_dagster_run_id := Undefined;
                      Routes.run_request_id := Undefined |}))
  end.

(** A failure body [{ detail }]: none of the properties the poller reads. *)
Definition no_progress : ChatInterface.ProgressData :=
  {| ChatInterface.data_status := Undefined;
     ChatInterface.data_downloaded := Undefined;
     ChatInterface.data_total := Undefined;
     ChatInterface.data_samples := Undefined |}.

(** Modelled from the spec: [GET /download-progress?request_id=] of
    section 6, answering [status], [downloaded], [total]. *)
Definition download_progress (st : State) (req : HttpRequest Empty_set)
    : State * FetchOutcome ChatInterface.ProgressData :=
  match after "request_id=" (req_url req) with
  | Some rid =>
      match get rid st with
      | inr j =>
          (st, Responded 200
                 (Json {| ChatInterface.data_status := Val (status_name (job_status j));
                          ChatInterface.data_downloaded := Val (job_progress j);
                          ChatInterface.data_total := Val (job_total j);
                          ChatInterface.data_samples := Undefined |}))
      | inl _ => (st, Responded 404 (Json no_progress))
      end
  | None => (st, Responded 404 (Json no_progress))
  end.

End Http.

End Backend.

(** ** Concrete inputs used to exercise the statements *)

Module Samples.

Import ChatInterface.

Definition st0 : Stamp :=
  {| date_now := 1700000000000; random36 := "k3j9x0abc";
     iso_now := "2024-01-01T00:00:00.000Z" |}.

Definition chat0 : Chat :=
  {| chat_id := "c1"; chat_title := "New Chat"; chat_messages := [];
     chat_createdAt := "2024-01-01T00:00:00.000Z" |}.

Definition ui0 : UI := {| samplingStatus := ∅; chats := [chat0] |}.

Definition progress (s : string) (downloaded total : Z) : ProgressData :=
  {| data_status := Val s; data_downloaded := Val downloaded;
     data_total := Val total; data_samples := Undefined |}.

Definition d_running : ProgressData := progress "running" 3 10.
Definition d_completed : ProgressData := progress "completed" 10 10.

(** A poller for request "r1" in chat "c1" whose first status check is in
    flight. *)
Definition w_polling : World := step "r1" "c1" (pollSamplingStatus ui0) IntervalFires.

(** The same poller with two checks in flight. *)
Definition w_overlap : World := step "r1" "c1" w_polling IntervalFires.

End Samples.

(** * Properties *)

(** ** Facts about the JavaScript helpers *)

Module JSFacts.

Lemma prefix_append (n rest : string) : String.prefix n (n +:+ rest) = true.
Proof.
  induction n as [|c n IH]; simpl.
  - destruct rest; reflexivity.
  - destruct (Ascii.ascii_dec c c) as [_|ne]; [exact IH | congruence].
Qed.

Lemma includes_of_prefix (n hay : string) :
  String.prefix n hay = true -> includes n hay = true.
Proof. intros H. destruct hay; simpl in *; rewrite H; reflexivity. Qed.

Lemma includes_skip (n hay : string) (c : Ascii.ascii) :
  includes n hay = true -> includes n (String c hay) = true.
Proof.
  intros H. change (includes n (String c hay))
    with (String.prefix n (String c hay) || includes n hay).
  rewrite H. apply orb_true_r.
Qed.

Lemma includes_after (n before hay : string) :
  includes n hay = true -> includes n (before +:+ hay) = true.
Proof.
  intros H. induction before as [|c before IH]; [exact H|].
  apply (includes_skip n (before +:+ hay) c), IH.
Qed.

(** A string that was built around [n] includes [n]. *)
Lemma includes_middle (n before rest : string) :
  includes n (before +:+ n +:+ rest) = true.
Proof. apply includes_after, includes_of_prefix, prefix_append. Qed.

Lemma ge_spec (a b : field Z) :
  ge a b = true <->
  exists x y, to_number a = Some x /\ to_number b = Some y /\ y <= x.
Proof.
  unfold ge. destruct (to_number a) as [x|], (to_number b) as [y|]; split.
  - intros H. exists x, y. repeat split. apply Z.leb_le, H.
  - intros (x' & y' & Hx & Hy & Hle). apply Z.leb_le. congruence.
  - discriminate.
  - intros (? & ? & _ & ? & _). discriminate.
  - discriminate.
  - intros (? & ? & ? & _). discriminate.
  - discriminate.
  - intros (? & ? & ? & _). discriminate.
Qed.

End JSFacts.

(** ** The poller *)

Module PollerFacts.

Import ChatInterface.

Section Facts.

Variables (requestId chatId : string).

#[local] Abbreviation step := (step requestId chatId).
#[local] Abbreviation run := (run requestId chatId).

(** The events that clear the interval: a settled fetch that threw, an ok
    response whose body did not parse or was [null], an ok response whose
    parsed body meets the stop condition, and the give-up timer. *)
Definition clears_interval (w : World) (e : Event) : bool :=
  match e with
  | IntervalFires => false
  | FetchSettles r _ =>
      match in_flight w with
      | O => false
      | S _ =>
          match r with
          | NetworkError _ => true
          | Responded code body =>
              ok_status code
              && match body with
                 | SyntaxError _ => true
                 | Json data => stop_condition data
                 end
          | RespondedNull code _ => ok_status code
          end
      end
  | TimeoutFires => timeout_pending w
  end.


(** The rendered state after an ok response with body [data] was handled. *)
Definition ui_after (data : ProgressData) (st : Stamp) (u : UI) : UI :=
  {| samplingStatus := <[requestId := observed_status requestId data]> (samplingStatus u);
     chats := if stop_condition data
              then add_completion requestId chatId (completionMessage requestId data st) (chats u)
              else chats u |}.


(** The written contract for the give-up timer: its firing shows to an
    observer of the rendered state or of the console. *)
Definition timeout_outcome_as_claimed (w : World) : Prop :=
  let w' := step w TimeoutFires in
  (ui w', console w') <> (ui w, console w).

(** Every chat that the poller writes to already shows the completion
    message of this request. *)
Definition reported (cs : list Chat) : Prop :=
  Forall (fun c => chat_id c = chatId -> hasCompletionMsg requestId c = true) cs.

Lemma no_interval_after_filter (ts : list Timer) :
  existsb is_interval (filter (fun t => is_interval t = false) ts) = false.
Proof.
  induction ts as [|t ts IH]; [reflexivity|].
  rewrite filter_cons.
  destruct (decide (is_interval t = false)) as [E|E]; simpl; [rewrite E|]; exact IH.
Qed.

Lemma interval_active_clearInterval (w : World) :
  interval_active (clearInterval w) = false.
Proof. apply no_interval_after_filter. Qed.

Lemma interval_kept_by_clearTimeout (w : World) :
  interval_active (clearTimeout w) = interval_active w.
Proof.
  unfold interval_active, clearTimeout, with_timers; simpl.
  induction (timers w) as [|t ts IH]; [reflexivity|].
  rewrite filter_cons.
  destruct (decide (is_timeout t = false)) as [E|E]; simpl; rewrite IH;
    [reflexivity|]. destruct t; simpl in *; congruence.
Qed.

Lemma interval_active_step (w : World) (e : Event) :
  interval_active (step w e) = interval_active w && negb (clears_interval w e).
Proof.
  destruct e as [|r st|]; simpl.
  - destruct (interval_active w) eqn:E; [exact E | now rewrite E].
  - destruct (in_flight w) eqn:Hn; [now rewrite andb_true_r|].
    destruct r as [msg|code body|code msg]; simpl.
    + rewrite interval_active_clearInterval. now rewrite andb_false_r.
    + destruct (ok_status code); simpl; [|now rewrite andb_true_r].
      destruct body as [msg|data]; simpl.
      * rewrite interval_active_clearInterval. now rewrite andb_false_r.
      * destruct (stop_condition data); simpl.
        -- change (interval_active (clearInterval
                    (setSamplingStatus (insert requestId (observed_status requestId data))
                       (settle_one w))) = interval_active w && false).
           rewrite interval_active_clearInterval. now rewrite andb_false_r.
        -- now rewrite andb_true_r.
    + destruct (ok_status code); simpl; [|now rewrite andb_true_r].
      rewrite interval_active_clearInterval. now rewrite andb_false_r.
  - destruct (timeout_pending w); simpl; [|now rewrite andb_true_r].
    rewrite interval_active_clearInterval. now rewrite andb_false_r.
Qed.

Lemma requests_step (w : World) (e : Event) :
  requests (step w e) =
  match e with
  | IntervalFires => if interval_active w then (requests w ++ [poll_request requestId])%list
                     else requests w
  | _ => requests w
  end.
Proof.
  destruct e as [|r st|]; simpl.
  - destruct (interval_active w); reflexivity.
  - destruct (in_flight w); [reflexivity|].
    destruct r as [msg|code [msg|data]|code msg]; simpl; try reflexivity;
      destruct (ok_status code); simpl; try reflexivity.
    destruct (stop_condition data); reflexivity.
  - destruct (timeout_pending w); reflexivity.
Qed.

Lemma stopped_stays_stopped (w : World) (es : list Event) :
  interval_active w = false -> interval_active (run w es) = false.
Proof.
  revert w. induction es as [|e es IH]; intros w H; [exact H|].
  apply IH. rewrite interval_active_step, H. reflexivity.
Qed.

Lemma stopped_sends_nothing (w : World) (es : list Event) :
  interval_active w = false -> requests (run w es) = requests w.
Proof.
  revert w. induction es as [|e es IH]; intros w H; [reflexivity|].
  change (requests (run (step w e) es) = requests w).
  rewrite IH by (rewrite interval_active_step, H; reflexivity).
  rewrite requests_step. destruct e; rewrite ?H; reflexivity.
Qed.

Lemma requests_run (w : World) (es : list Event) :
  exists n, requests (run w es) = (requests w ++ replicate n (poll_request requestId))%list.
Proof.
  revert w. induction es as [|e es IH]; intros w.
  - exists 0%nat. simpl. now rewrite app_nil_r.
  - destruct (IH (step w e)) as [n Hn].
    change (run w (e :: es)) with (run (step w e) es). rewrite Hn, requests_step.
    destruct e; try (exists n; reflexivity).
    destruct (interval_active w); [|exists n; reflexivity].
    exists (S n). now rewrite <- app_assoc.
Qed.

Lemma completionMessage_marked (data : ProgressData) (st : Stamp) :
  is_completion_msg requestId (completionMessage requestId data st) = true.
Proof.
  unfold is_completion_msg, completionMessage; cbn [msg_content msg_request_id].
  apply andb_true_intro; split.
  - apply JSFacts.includes_middle.
  - apply bool_decide_eq_true. reflexivity.
Qed.

Lemma add_completion_reported (m : Message) (cs : list Chat) :
  reported cs -> add_completion requestId chatId m cs = cs.
Proof.
  unfold reported, add_completion. induction 1 as [|c cs Hc _ IH]; [reflexivity|].
  simpl. rewrite IH. f_equal.
  case_bool_decide as Hid; [|reflexivity]. now rewrite (Hc Hid).
Qed.

Lemma hasCompletionMsg_snoc (c : Chat) (m : Message) :
  is_completion_msg requestId m = true ->
  existsb (is_completion_msg requestId) (chat_messages c ++ [m]) = true.
Proof. intros Hm. rewrite existsb_app. simpl. rewrite Hm. now rewrite orb_true_r. Qed.

Lemma reported_add_completion (m : Message) (cs : list Chat) :
  is_completion_msg requestId m = true ->
  reported (add_completion requestId chatId m cs).
Proof.
  intros Hm. unfold reported, add_completion. apply Forall_map, Forall_forall.
  intros c _. case_bool_decide as Hid; [|intros Hid'; contradiction].
  destruct (hasCompletionMsg requestId c) eqn:Hhas; simpl; intros _; [exact Hhas|].
  unfold hasCompletionMsg; simpl. now apply hasCompletionMsg_snoc.
Qed.

Lemma ui_step (w : World) (e : Event) :
  ui (step w e) =
  match e with
  | FetchSettles (Responded code (Json data)) st =>
      match in_flight w with
      | O => ui w
      | S _ => if ok_status code then ui_after data st (ui w) else ui w
      end
  | _ => ui w
  end.
Proof.
  destruct e as [|r st|]; simpl.
  - destruct (interval_active w); reflexivity.
  - destruct r as [msg|code [msg|data]|code msg]; destruct (in_flight w); simpl;
      try reflexivity.
    + destruct (ok_status code); reflexivity.
    + unfold ui_after. destruct (ok_status code); [|reflexivity].
      destruct (stop_condition data); reflexivity.
    + destruct (ok_status code); reflexivity.
  - destruct (timeout_pending w); reflexivity.
Qed.



Lemma chats_step_reported (w : World) (e : Event) :
  reported (chats (ui w)) -> chats (ui (step w e)) = chats (ui w).
Proof.
  intros Hrep. rewrite ui_step.
  destruct e as [|[msg|code [msg|data]|code msg] st|]; try reflexivity.
  destruct (in_flight w); [reflexivity|].
  destruct (ok_status code); [|reflexivity].
  unfold ui_after; simpl. destruct (stop_condition data); [|reflexivity].
  now apply add_completion_reported.
Qed.

Lemma chats_run_reported (w : World) (es : list Event) :
  reported (chats (ui w)) -> chats (ui (run w es)) = chats (ui w).
Proof.
  revert w. induction es as [|e es IH]; intros w Hrep; [reflexivity|].
  change (run w (e :: es)) with (run (step w e) es).
  rewrite IH; rewrite chats_step_reported; auto.
Qed.

(** One poll iteration: the interval fires and its fetch settles with an
    ok response carrying [data]. *)
Definition iteration (data : ProgressData) (st : Stamp) : list Event :=
  [IntervalFires; FetchSettles (Responded 200 (Json data)) st].

Lemma iteration_keeps_polling (w : World) (data : ProgressData) (st : Stamp) :
  interval_active w = true ->
  stop_condition data = false ->
  interval_active (run w (iteration data st)) = true.
Proof.
  intros Hon Hgo. unfold iteration.
  change (interval_active (step (step w IntervalFires)
            (FetchSettles (Responded 200 (Json data)) st)) = true).
  rewrite !interval_active_step, Hon. simpl. rewrite Hon. simpl.
  now rewrite Hgo.
Qed.

(** A job that stays in a state that does not meet the stop condition, for
    instance status 'error' with fewer items than the total, is polled
    for as many rounds as the timers allow. *)
Lemma rounds_keep_polling (w : World) (data : ProgressData) (st : Stamp) (n : nat) :
  interval_active w = true ->
  stop_condition data = false ->
  interval_active (run w (concat (replicate n (iteration data st)))) = true.
Proof.
  intros Hon Hgo. revert w Hon. induction n as [|n IH]; intros w Hon; [exact Hon|].
  change (concat (replicate (S n) (iteration data st)))
    with (iteration data st ++ concat (replicate n (iteration data st)))%list.
  unfold ChatInterface.run. rewrite fold_left_app. apply IH.
  now apply iteration_keeps_polling.
Qed.


(** C3 (as amended). When the give-up timer fires the poller stops: the
    interval is cleared and no later event sends a status check. Nothing is
    reported: the rendered state, the console and the pending fetches are
    exactly as they were before the timer fired. *)
Theorem timeout_stops_silently (w : World) :
  timeout_pending w = true ->
  let w' := step w TimeoutFires in
  interval_active w' = false
  /\ ui w' = ui w
  /\ console w' = console w
  /\ in_flight w' = in_flight w
  /\ forall es, requests (run w' es) = requests w.
Proof.
  intros Hp w'. assert (Hoff : interval_active w' = false).
  { unfold w'. rewrite interval_active_step. simpl. rewrite Hp. apply andb_false_r. }
  split; [exact Hoff|]. split; [unfold w'; now rewrite ui_step|].
  split; [unfold w'; simpl; now rewrite Hp|].
  split; [unfold w'; simpl; now rewrite Hp|].
  intros es. rewrite stopped_sends_nothing by exact Hoff.
  unfold w'. now rewrite requests_step.
Qed.

(** C5. Once a poll has observed the terminal state (an ok response that
    meets the stop condition) and has been handled, the chat list never
    changes again under any later events of the poller, so no second
    completion message is ever appended; and handling the same payload a
    second time leaves the whole rendered state as it is. *)
Theorem completion_reported_once (w : World) (code : Z) (data : ProgressData) (st : Stamp) :
  in_flight w <> 0%nat ->
  ok_status code = true ->
  stop_condition data = true ->
  let w1 := step w (FetchSettles (Responded code (Json data)) st) in
  reported (chats (ui w1))
  /\ (forall es, chats (ui (run w1 es)) = chats (ui w1))
  /\ (forall st', ui (step w1 (FetchSettles (Responded code (Json data)) st')) = ui w1).
Proof.
  intros Hn Hok Hstop w1.
  assert (Hui : ui w1 = ui_after data st (ui w)).
  { unfold w1. rewrite ui_step, Hok. destruct (in_flight w); [contradiction|reflexivity]. }
  assert (Hrep : reported (chats (ui w1))).
  { rewrite Hui. unfold ui_after; simpl. rewrite Hstop.
    apply reported_add_completion, completionMessage_marked. }
  split; [exact Hrep|]. split.
  - intros es. now apply chats_run_reported.
  - intros st'. rewrite ui_step, Hok. destruct (in_flight w1); [reflexivity|].
    unfold ui_after. rewrite Hstop, (add_completion_reported _ _ Hrep).
    rewrite Hui. unfold ui_after; simpl. rewrite insert_insert_eq, Hstop.
    reflexivity.
Qed.

(** C6. [pollSamplingStatus] registers an interval of 2000 ms and a
    give-up timer of 300000 ms, which is exactly 150 intervals. *)
Theorem default_timing (u : UI) :
  timers (pollSamplingStatus u) = [SetInterval 2000; SetTimeout 300000]
  /\ POLL_INTERVAL_MS = 2000
  /\ POLL_TIMEOUT_MS = 150 * POLL_INTERVAL_MS.
Proof. repeat split. Qed.

(** C10. When the fetch of a poll iteration throws, the interval is
    cleared, no later event sends another status check, and the rendered
    state is left as it was: the failure is only written to the console. *)
Theorem fetch_failure_stops_polling (w : World) (message : string) (st : Stamp) :
  in_flight w <> 0%nat ->
  let w' := step w (FetchSettles (NetworkError message) st) in
  interval_active w' = false
  /\ ui w' = ui w
  /\ console w' = (console w ++ ["Polling error:"])%list
  /\ forall es, requests (run w' es) = requests w.
Proof.
  intros Hn w'. assert (Hoff : interval_active w' = false).
  { unfold w'. rewrite interval_active_step. simpl.
    destruct (in_flight w); [contradiction|]. apply andb_false_r. }
  split; [exact Hoff|]. split; [unfold w'; now rewrite ui_step|]. split.
  - unfold w'. simpl. destruct (in_flight w); [contradiction|reflexivity].
  - intros es. rewrite stopped_sends_nothing by exact Hoff.
    unfold w'. now rewrite requests_step.
Qed.

End Facts.

Import Samples.



Lemma timeout_stops_silently_witness :
  timeout_pending w_polling = true
  /\ interval_active (step "r1" "c1" w_polling TimeoutFires) = false
  /\ ui (step "r1" "c1" w_polling TimeoutFires) = ui w_polling.
Proof.
  split; [reflexivity|].
  destruct (timeout_stops_silently "r1" "c1" w_polling eq_refl) as (Hoff & Hui & _).
  split; [exact Hoff | exact Hui].
Defined.

(** C3, counterexample. For a poller that is still waiting for the job,
    the firing of the give-up timer changes neither the rendered state nor
    the console. *)
Lemma timeout_outcome_counterexample :
  interval_active w_polling = true
  /\ ~ timeout_outcome_as_claimed "r1" "c1" w_polling.
Proof. split; [reflexivity|]. intros H. apply H. reflexivity. Qed.

Lemma completion_reported_once_witness :
  let w1 := step "r1" "c1" w_overlap (FetchSettles (Responded 200 (Json d_completed)) st0) in
  in_flight w_overlap <> 0%nat
  /\ ok_status 200 = true
  /\ stop_condition d_completed = true
  /\ ui (step "r1" "c1" w1 (FetchSettles (Responded 200 (Json d_completed)) st0)) = ui w1.
Proof.
  intros w1.
  assert (Hn : in_flight w_overlap <> 0%nat) by discriminate.
  split; [exact Hn|]. split; [reflexivity|]. split; [reflexivity|].
  destruct (completion_reported_once "r1" "c1" w_overlap 200 d_completed st0
              Hn eq_refl eq_refl) as (_ & _ & Hsame).
  apply Hsame.
Defined.

Lemma fetch_failure_stops_polling_witness :
  in_flight w_polling <> 0%nat
  /\ interval_active (step "r1" "c1" w_polling (FetchSettles (NetworkError "Failed to fetch") st0))
     = false.
Proof.
  assert (Hn : in_flight w_polling <> 0%nat) by discriminate.
  split; [exact Hn|].
  destruct (fetch_failure_stops_polling "r1" "c1" w_polling "Failed to fetch" st0 Hn)
    as (Hoff & _).
  exact Hoff.
Defined.

End PollerFacts.

(** ** The build form *)

Module BuildFormFacts.

Import BuildForm.


(** A form holding the query "cats" and a total of 0. *)
Definition cats_zero : FormState :=
  {| query := [99; 97; 116; 115]%N; total := Some 0; type := "auto";
     loading := false; status := Text "Awaiting input..." |}.


Lemma trimStart_empty (s : jsstring) :
  is_empty (trimStart s) = forallb is_white_space s.
Proof.
  induction s as [|c s IH]; [reflexivity|].
  simpl. destruct (is_white_space c); [exact IH | reflexivity].
Qed.

Lemma forallb_rev {A} (f : A -> bool) (l : list A) :
  forallb f (rev l) = forallb f l.
Proof.
  induction l as [|x l IH]; [reflexivity|].
  simpl. rewrite forallb_app, IH. simpl. rewrite andb_true_r. apply andb_comm.
Qed.

Lemma is_empty_rev (l : jsstring) : is_empty (rev l) = is_empty l.
Proof. destruct l as [|x l]; [reflexivity|]. simpl. now destruct (rev l). Qed.

Lemma trimStart_keeps_last (s : jsstring) :
  forallb is_white_space s = false -> forallb is_white_space (trimStart s) = false.
Proof.
  induction s as [|c s IH]; [discriminate|].
  simpl. destruct (is_white_space c) eqn:Hc; simpl; [exact IH|].
  intros _. now rewrite Hc.
Qed.

(** [!query.trim()] holds exactly for a query made of white space only. *)
Lemma blank_iff_trim_empty (s : jsstring) :
  is_empty (trim s) = forallb is_white_space s.
Proof.
  unfold trim. rewrite is_empty_rev, trimStart_empty, forallb_rev.
  destruct (forallb is_white_space s) eqn:Hs.
  - rewrite <- trimStart_empty in Hs. now destruct (trimStart s).
  - now apply trimStart_keeps_last.
Qed.




End BuildFormFacts.

(** ** The proxy routes *)

Module RoutesFacts.

Import Routes.

Definition request_id_required {D} : NextResponse (ProxyPayload D) :=
  {| status := 400; payload := ErrorJson "request_id parameter is required" |}.

(** C9. A GET to the download-progress route whose URL has no
    [request_id] parameter is answered with status 400 and an error
    payload straight away: the handler sends no request to the backend,
    so whatever serves the backend is neither called nor changed. *)
Theorem missing_request_id_rejected {D : Type} (params : list (string * string)) :
  searchParams_get "request_id" params = None ->
  GET_download_progress (D := D) params = Return request_id_required
  /\ sent (GET_download_progress (D := D) params) = []
  /\ forall (S : Type) (server : S -> HttpRequest Empty_set -> S * FetchOutcome D) (st : S),
       serve server st (GET_download_progress params) = (st, request_id_required).
Proof.
  intros Hnone. assert (H : GET_download_progress (D := D) params = Return request_id_required).
  { unfold GET_download_progress. now rewrite Hnone. }
  rewrite H. repeat split.
Qed.

Lemma missing_request_id_rejected_witness :
  searchParams_get "request_id" [("id", "42")] = None
  /\ GET_download_progress (D := ChatInterface.ProgressData) [("id", "42")]
     = Return request_id_required.
Proof.
  split; [reflexivity|].
  apply (missing_request_id_rejected (D := ChatInterface.ProgressData) [("id", "42")]).
  reflexivity.
Defined.

(** An empty value is rejected in the same way. *)
Lemma empty_request_id_rejected {D : Type} (params : list (string * string)) :
  searchParams_get "request_id" params = Some "" ->
  GET_download_progress (D := D) params = Return request_id_required.
Proof. intros H. unfold GET_download_progress. now rewrite H. Qed.

(** With a request id the route sends exactly one GET to the backend. *)
Lemma progress_route_sends_one_get {D : Type} (params : list (string * string)) :
  Forall (fun r => req_method r = GET /\ req_body r = None)
         (sent (GET_download_progress (D := D) params)).
Proof.
  unfold GET_download_progress.
  destruct (searchParams_get "request_id" params) as [rid|]; simpl; [|constructor].
  destruct (bool_decide (rid = "")); simpl; repeat constructor.
Qed.

End RoutesFacts.

(** ** Starting a full download *)

Module CoordinatorFacts.

Import Routes Backend.

(** A store holding the sample job "r1", still running. *)
Definition running_store : State :=
  {| jobs := {[ "r1" := {| job_request_id := "r1"; job_kind := sample;
                           job_status := running; job_progress := 3; job_total := 10;
                           job_result_ref := None; job_error_message := None;
                           job_created_at := 0; job_updated_at := 4 |} ]};
     now := 5 |}.

(** A store holding the sample job "r1", completed. *)
Definition completed_store : State :=
  {| jobs := {[ "r1" := {| job_request_id := "r1"; job_kind := sample;
                           job_status := completed; job_progress := 10; job_total := 10;
                           job_result_ref := Some "samples/r1"; job_error_message := None;
                           job_created_at := 0; job_updated_at := 11 |} ]};
     now := 12 |}.

Definition full_run_body : StartRunBody :=
  {| body_request_id := "r1"; body_persist := true |}.

Definition started (rid handle : string) : NextResponse (ProxyPayload StartRunData) :=
  {| status := 200;
     payload := Forwarded {| run_detail := Undefined;
                             run_dagster_run_id := Val handle;
                             run_request_id := Val rid |} |}.

Definition refused (code : Z) : NextResponse (ProxyPayload StartRunData) :=
  {| status := code; payload := DetailJson "NotReady" |}.

Lemma create_fresh (kind : JobKind) (hint : Z) (st : State) :
  jobs st !! fst (create kind hint st) = None.
Proof. apply fresh_string_fresh. Qed.

Section StartFullRun.

Variables (refusal_code : Z) (FASTAPI_URL : option string)
          (response_error_message : Z -> string).

(** The backend refuses with a status that is not ok and that the
    Response constructor accepts (any of 400 to 599, say). *)
Hypothesis refusal_not_ok : ok_status refusal_code = false.
Hypothesis refusal_accepted : accepts_status refusal_code = true.

#[local] Abbreviation post_through_proxy st b :=
  (serve (start_full_run refusal_code) st
     (POST_start_full_run FASTAPI_URL response_error_message (Json b))).

(** C4. Posting to /api/start-full-run for a request id whose sample job is
    not completed is answered with the backend's refusal, detail NotReady,
    and the job store is left as it was; when the sample job is completed,
    the answer is 200 with a run handle, and the store has gained exactly
    one job under that fresh handle, a full-download job still pending. *)
Theorem full_run_needs_completed_sample (st : State) (b : StartRunBody) (j : Job) :
  jobs st !! body_request_id b = Some j ->
  job_kind j = sample ->
  (job_status j <> completed ->
   submit_full_download (body_request_id b) (body_persist b) st = (inl NotReady, st)
   /\ post_through_proxy st b = (st, refused refusal_code))
  /\ (job_status j = completed ->
      exists handle st' job,
        post_through_proxy st b = (st', started (body_request_id b) handle)
        /\ jobs st !! handle = None
        /\ jobs st' = <[handle := job]> (jobs st)
        /\ job_kind job = full_download
        /\ job_status job = pending).
Proof.
  intros Hj Hkind. split; intros Hstatus.
  - assert (Hready : sample_completed (body_request_id b) st = false).
    { unfold sample_completed. rewrite Hj. apply andb_false_intro2.
      now apply bool_decide_eq_false. }
    unfold serve, POST_start_full_run, start_full_run, submit_full_download; simpl.
    rewrite Hready; simpl. rewrite refusal_not_ok; simpl.
    unfold json_or_catch. rewrite refusal_accepted. split; reflexivity.
  - assert (Hready : sample_completed (body_request_id b) st = true).
    { unfold sample_completed. rewrite Hj, Hkind, Hstatus. reflexivity. }
    unfold serve, POST_start_full_run, start_full_run, submit_full_download; simpl.
    rewrite Hready; simpl.
    eexists _, _, _. split; [reflexivity|]. split; [apply fresh_string_fresh|].
    simpl. repeat split.
Qed.

End StartFullRun.

Lemma full_run_needs_completed_sample_witness :
  ok_status 409 = false
  /\ accepts_status 409 = true
  /\ serve (start_full_run 409) running_store
       (POST_start_full_run None (fun _ => "RangeError") (Json full_run_body))
     = (running_store, refused 409)
  /\ exists handle st',
       serve (start_full_run 409) completed_store
         (POST_start_full_run None (fun _ => "RangeError") (Json full_run_body))
       = (st', started "r1" handle).
Proof.
  split; [reflexivity|]. split; [reflexivity|]. split.
  - refine (proj2 (proj1 (full_run_needs_completed_sample 409 None (fun _ => "RangeError")
                            eq_refl eq_refl running_store full_run_body _ eq_refl eq_refl) _)).
    discriminate.
  - destruct (proj2 (full_run_needs_completed_sample 409 None (fun _ => "RangeError")
                       eq_refl eq_refl completed_store full_run_body _ eq_refl eq_refl)
                eq_refl) as (handle & st' & job & Hpost & _).
    exists handle, st'. exact Hpost.
Defined.

End CoordinatorFacts.

(** ** Polling leaves the job alone *)

Module FrameFacts.

Import ChatInterface Routes.

Section Frame.

(** The backend behind the proxy, with its state [S]. *)
Context {S D : Type}.
Variable backend : S -> HttpRequest Empty_set -> S * FetchOutcome D.

(** The backend treats a GET as a read. *)
Hypothesis backend_get_reads :
  forall st req, req_method req = GET -> fst (backend st req) = st.

Variables (requestId chatId : string).

(** The backend state after the proxy has served one GET per parameter
    list. *)
Definition serve_polls (st : S) (polls : list (list (string * string))) : S :=
  fold_left (fun st params => fst (serve backend st (GET_download_progress params)))
            polls st.

Lemma serve_poll_reads (st : S) (params : list (string * string)) :
  fst (serve backend st (GET_download_progress params)) = st.
Proof.
  unfold GET_download_progress.
  destruct (searchParams_get "request_id" params) as [rid|]; simpl; [|reflexivity].
  destruct (bool_decide (rid = "")); simpl; [reflexivity|].
  pose proof (backend_get_reads st (progress_upstream rid) eq_refl) as H.
  destruct (backend st (progress_upstream rid)) as [st' out]. exact H.
Qed.

(** C7. Whatever happens to a poller, every request it sends is the same
    bodiless GET of the status route; events other than the interval
    firing (a fetch settling, the give-up timer, a stop) send nothing;
    the proxy turns a poll into at most one bodiless GET to the backend;
    and serving any number of polls through the proxy leaves the backend
    state, hence every job, as it was. *)
Theorem polling_only_reads (w : World) (es : list Event) :
  (exists n, requests (run requestId chatId w es)
             = (requests w ++ replicate n (poll_request requestId))%list)
  /\ req_method (poll_request requestId) = GET
  /\ req_body (poll_request requestId) = None
  /\ (forall e, e <> IntervalFires -> requests (step requestId chatId w e) = requests w)
  /\ (forall params,
        Forall (fun r => req_method r = GET /\ req_body r = None)
               (sent (GET_download_progress (D := D) params)))
  /\ (forall st polls, serve_polls st polls = st).
Proof.
  split; [apply PollerFacts.requests_run|]. split; [reflexivity|]. split; [reflexivity|].
  split; [|split].
  - intros e He. rewrite PollerFacts.requests_step. destruct e; congruence.
  - intros params. apply RoutesFacts.progress_route_sends_one_get.
  - intros st polls. unfold serve_polls. induction polls as [|p polls IH]; [reflexivity|].
    simpl. rewrite serve_poll_reads. exact IH.
Qed.

End Frame.

Lemma download_progress_reads (st : Backend.State) (req : HttpRequest Empty_set) :
  req_method req = GET -> fst (Backend.download_progress st req) = st.
Proof.
  intros _. unfold Backend.download_progress.
  destruct (Backend.after "request_id=" (req_url req)) as [rid|]; [|reflexivity].
  destruct (Backend.get rid st); reflexivity.
Qed.

Lemma polling_only_reads_witness :
  serve_polls Backend.download_progress CoordinatorFacts.running_store
    [[("request_id", "r1")]; [("request_id", "r1")]; []]
  = CoordinatorFacts.running_store.
Proof.
  apply (polling_only_reads Backend.download_progress download_progress_reads
           "r1" "c1" Samples.w_polling []).
Defined.

End FrameFacts.

(** * The rest of the chat component, the full-download button and the
      sibling proxy routes *)

(** ** Actions of a component that await one [fetch] *)

(** An event handler of a component: it returns at once without touching
    anything ([Skip]), or it updates the state synchronously ([started]),
    sends a request and, when the fetch settles, applies [resume] to the
    state of that moment. [resume] also gets the clock values read then. *)
Inductive Action (S B D : Type) : Type :=
| Skip
| Suspend (started : S) (request : HttpRequest B)
          (resume : FetchOutcome D -> ChatInterface.Stamp -> S -> S).
Arguments Skip {S B D}.
Arguments Suspend {S B D} started request resume.

(** The requests an action sends. *)
Definition action_sent {S B D} (a : Action S B D) : list (HttpRequest B) :=
  match a with
  | Skip => []
  | Suspend _ req _ => [req]
  end.

(** The state after the action has run to its end with nothing else
    happening in between; [s] is the state it was started in. *)
Definition finish {S B D} (s : S) (a : Action S B D) (out : FetchOutcome D)
    (t : ChatInterface.Stamp) : S :=
  match a with
  | Skip => s
  | Suspend started _ resume => resume out t started
  end.

(** ** ChatInterface: chats, messages and plans *)

Module ChatActions.

Import ChatInterface.

(** [x] as an optional property of a typed object: [null] and
    [undefined] both compare unequal to every string. *)
Definition to_option {A} (x : field A) : option A :=
  match x with
  | Val a => Some a
  | _ => None
  end.

(** Truthiness of a string property. *)
Definition truthy_str (x : field string) : bool :=
  match x with
  | Val s => negb (bool_decide (s = ""))
  | _ => false
  end.

(** Template-literal interpolation of a string property. *)
Definition interpolate_str (x : field string) : string :=
  match x with
  | Undefined => "undefined"
  | Null => "null"
  | Val s => s
  end.

(** The strings of the chat model are byte strings; a JavaScript string
    stands in them as its UTF-8 encoding, a surrogate without its partner
    as the three bytes of its own code. [length], [slice] and [trim] work
    on UTF-16 code units, which [code_units] gives back: one unit for a
    sequence of one, two or three bytes, a surrogate pair for a sequence
    of four. A byte that begins no sequence, which no encoding of a
    JavaScript string contains, counts as a unit of its own. *)
Definition byte (c : Ascii.ascii) : N := Ascii.N_of_ascii c.

Definition continuation (b : N) : bool := ((128 <=? b) && (b <? 192))%N.

Fixpoint code_units (s : string) : BuildForm.jsstring :=
  match s with
  | EmptyString => []
  | String c0 r0 =>
      let b0 := byte c0 in
      let alone := b0 :: code_units r0 in
      if (b0 <? 192)%N || (247 <? b0)%N then alone
      else
        match r0 with
        | String c1 r1 =>
            let b1 := byte c1 in
            if negb (continuation b1) then alone
            else if (b0 <? 224)%N then
              ((b0 - 192) * 64 + (b1 - 128))%N :: code_units r1
            else
              match r1 with
              | String c2 r2 =>
                  let b2 := byte c2 in
                  if negb (continuation b2) then alone
                  else if (b0 <? 240)%N then
                    ((b0 - 224) * 4096 + (b1 - 128) * 64 + (b2 - 128))%N :: code_units r2
                  else
                    match r2 with
                    | String c3 r3 =>
                        let b3 := byte c3 in
                        if negb (continuation b3) then alone
                        else
                          let point := ((b0 - 240) * 262144 + (b1 - 128) * 4096
                                        + (b2 - 128) * 64 + (b3 - 128))%N in
                          let v := (point - 65536)%N in
                          (55296 + v / 1024)%N :: (56320 + v mod 1024)%N :: code_units r3
                    | EmptyString => alone
                    end
              | EmptyString => alone
              end
        | EmptyString => alone
        end
  end.

Definition high_surrogate (u : N) : bool := ((55296 <=? u) && (u <? 56320))%N.
Definition low_surrogate (u : N) : bool := ((56320 <=? u) && (u <? 57344))%N.

Definition chr (n : N) : Ascii.ascii := Ascii.ascii_of_N n.

Definition three_bytes (u : N) (rest : string) : string :=
  String (chr (224 + u / 4096))
    (String (chr (128 + (u / 64) mod 64)) (String (chr (128 + u mod 64)) rest))%N.

(** The byte string that stands for a sequence of code units. *)
Fixpoint utf8 (us : BuildForm.jsstring) : string :=
  match us with
  | [] => EmptyString
  | u :: rest =>
      if (u <? 128)%N then String (chr u) (utf8 rest)
      else if (u <? 2048)%N then
        String (chr (192 + u / 64)) (String (chr (128 + u mod 64)) (utf8 rest))%N
      else if high_surrogate u then
        match rest with
        | l :: rest' =>
            if low_surrogate l then
              let point := (65536 + (u - 55296) * 1024 + (l - 56320))%N in
              String (chr (240 + point / 262144))
                (String (chr (128 + (point / 4096) mod 64))
                   (String (chr (128 + (point / 64) mod 64))
                      (String (chr (128 + point mod 64)) (utf8 rest'))))%N
            else three_bytes u (utf8 rest)
        | [] => three_bytes u EmptyString
        end
      else three_bytes u (utf8 rest)
  end.

(** [!s.trim()] *)
Definition blank (s : string) : bool :=
  BuildForm.is_empty (BuildForm.trim (code_units s)).

(** [a?.startsWith('temp-')] on the nullable active chat id. *)
Definition is_temp (a : option string) : bool :=
  match a with
  | Some id => String.prefix "temp-" id
  | None => false
  end.

(** The body of [POST /api/plan-and-sample] as [executePlan] builds it. *)
Record PlanRequest := {
  pr_query : string;
  pr_total_items : Z;
  pr_data_type : string
}.

(** The parsed answer of [POST /api/plan-and-sample]; [executePlan] reads
    [request_id] only. *)
Record PlanResult := {
  result_request_id : field string
}.

(** The body of [POST /api/chat]. *)
Record ChatBody := {
  cb_message : string;
  cb_chat_id : option string
}.

(** The parsed answer of [POST /api/chat]. *)
Record ChatData := {
  cd_response : string;
  cd_plan : option DatasetPlan;
  cd_request_id : field string;
  cd_chat_id : field string
}.

(** The component: its React state (the rendered [view], the active chat,
    the input box, the two busy flags), the [messageIdCounter] ref, and
    what it has done to the outside: the [pollSamplingStatus] calls as
    pairs of request id and chat id, the [onPlanGenerated] calls, and the
    console. *)
Record Session := {
  view : UI;
  activeChat : option string;
  input : string;
  isLoading : bool;
  executingPlan : bool;
  messageIdCounter : Z;
  pollers : list (string * string);
  plans_generated : list PlanResult;
  errors : list string
}.

Definition setView (f : UI -> UI) (s : Session) : Session :=
  {| view := f (view s); activeChat := activeChat s; input := input s;
     isLoading := isLoading s; executingPlan := executingPlan s;
     messageIdCounter := messageIdCounter s; pollers := pollers s;
     plans_generated := plans_generated s; errors := errors s |}.

Definition setChats (f : list Chat -> list Chat) (s : Session) : Session :=
  setView (fun u => {| samplingStatus := samplingStatus u; chats := f (chats u) |}) s.

Definition setSamplingStatus
    (f : gmap string SamplingStatus -> gmap string SamplingStatus) (s : Session) : Session :=
  setView (fun u => {| samplingStatus := f (samplingStatus u); chats := chats u |}) s.

Definition setActiveChat (a : option string) (s : Session) : Session :=
  {| view := view s; activeChat := a; input := input s;
     isLoading := isLoading s; executingPlan := executingPlan s;
     messageIdCounter := messageIdCounter s; pollers := pollers s;
     plans_generated := plans_generated s; errors := errors s |}.

Definition setInput (text : string) (s : Session) : Session :=
  {| view := view s; activeChat := activeChat s; input := text;
     isLoading := isLoading s; executingPlan := executingPlan s;
     messageIdCounter := messageIdCounter s; pollers := pollers s;
     plans_generated := plans_generated s; errors := errors s |}.

Definition setIsLoading (b : bool) (s : Session) : Session :=
  {| view := view s; activeChat := activeChat s; input := input s;
     isLoading := b; executingPlan := executingPlan s;
     messageIdCounter := messageIdCounter s; pollers := pollers s;
     plans_generated := plans_generated s; errors := errors s |}.

Definition setExecutingPlan (b : bool) (s : Session) : Session :=
  {| view := view s; activeChat := activeChat s; input := input s;
     isLoading := isLoading s; executingPlan := b;
     messageIdCounter := messageIdCounter s; pollers := pollers s;
     plans_generated := plans_generated s; errors := errors s |}.

(** [++messageIdCounter.current] *)
Definition bump_counter (s : Session) : Session :=
  {| view := view s; activeChat := activeChat s; input := input s;
     isLoading := isLoading s; executingPlan := executingPlan s;
     messageIdCounter := messageIdCounter s + 1; pollers := pollers s;
     plans_generated := plans_generated s; errors := errors s |}.

Definition start_poller (requestId chatId : string) (s : Session) : Session :=
  {| view := view s; activeChat := activeChat s; input := input s;
     isLoading := isLoading s; executingPlan := executingPlan s;
     messageIdCounter := messageIdCounter s;
     pollers := pollers s ++ [(requestId, chatId)];
     plans_generated := plans_generated s; errors := errors s |}.

Definition call_onPlanGenerated (r : PlanResult) (s : Session) : Session :=
  {| view := view s; activeChat := activeChat s; input := input s;
     isLoading := isLoading s; executingPlan := executingPlan s;
     messageIdCounter := messageIdCounter s; pollers := pollers s;
     plans_generated := plans_generated s ++ [r]; errors := errors s |}.

Definition console_error (line : string) (s : Session) : Session :=
  {| view := view s; activeChat := activeChat s; input := input s;
     isLoading := isLoading s; executingPlan := executingPlan s;
     messageIdCounter := messageIdCounter s; pollers := pollers s;
     plans_generated := plans_generated s; errors := errors s ++ [line] |}.

(** [`msg-${Date.now()}-${++messageIdCounter.current}`], given the counter
    before the increment. *)
Definition next_message_id (t : Stamp) (counter : Z) : string :=
  "msg-" +:+ pretty (date_now t) +:+ "-" +:+ pretty (counter + 1).

Definition with_messages (f : list Message -> list Message) (chat : Chat) : Chat :=
  {| chat_id := chat_id chat; chat_title := chat_title chat;
     chat_messages := f (chat_messages chat); chat_createdAt := chat_createdAt chat |}.

(** [prevChats.map(chat => chat.id === active ? f(chat) : chat)] *)
Definition in_chat (active : option string) (f : Chat -> Chat) (prevChats : list Chat)
    : list Chat :=
  map (fun chat => if bool_decide (Some (chat_id chat) = active) then f chat else chat)
      prevChats.

Definition append_message (m : Message) (chat : Chat) : Chat :=
  with_messages (fun ms => (ms ++ [m])%list) chat.

(** [createNewChat] *)
Definition createNewChat (t : Stamp) (s : Session) : Session :=
  let newChatId := "temp-" +:+ pretty (date_now t) in
  let newChat := {| chat_id := newChatId; chat_title := "New Chat";
                    chat_messages := []; chat_createdAt := iso_now t |} in
  setActiveChat (Some newChatId) (setChats (fun _ => newChat :: chats (view s)) s).

(** [filtered[0]?.id || null] *)
Definition first_id (cs : list Chat) : option string :=
  match cs with
  | [] => None
  | c :: _ => if bool_decide (chat_id c = "") then None else Some (chat_id c)
  end.

Definition delete_request (chatId : string) : HttpRequest Empty_set :=
  {| req_method := DELETE;
     req_url := "/api/chats/" +:+ chatId;
     req_headers := [];
     req_cache := None;
     req_body := None |}.

(** [deleteChat(chatId)]. The list it filters and the active chat it
    compares with are the ones of the render it was created in, [s]; the
    answer of the fetch is not looked at. *)
Definition deleteChat (chatId : string) (s : Session) : Action Session Empty_set unit :=
  if bool_decide (length (chats (view s)) = 1%nat) then Skip
  else
    Suspend s (delete_request chatId) (fun out _ cur =>
      match out with
      | NetworkError _ => console_error "Failed to delete chat:" cur
      | Responded _ _ | RespondedNull _ _ =>
          let filtered := filter (fun c => chat_id c <> chatId) (chats (view s)) in
          let cur1 := setChats (fun _ => filtered) cur in
          if bool_decide (activeChat s = Some chatId)
          then setActiveChat (first_id filtered) cur1
          else cur1
      end).

(** The message [sendMessage] builds from the input box. *)
Definition userMessage (t : Stamp) (s : Session) : Message :=
  {| msg_id := next_message_id t (messageIdCounter s);
     msg_role := user;
     msg_content := input s;
     msg_timestamp := iso_now t;
     msg_plan := None;
     msg_request_id := None |}.

Definition chat_request (s : Session) : HttpRequest ChatBody :=
  {| req_method := POST;
     req_url := "/api/chat";
     req_headers := [("Content-Type", "application/json")];
     req_cache := None;
     req_body := Some {| cb_message := input s;
                         cb_chat_id := if is_temp (activeChat s) then None
                                       else activeChat s |} |}.

(** [content.slice(0, 50) + (content.length > 50 ? '...' : '')], on the
    code units of [content]; 46 is the full stop. *)
Definition title_units (content : BuildForm.jsstring) : BuildForm.jsstring :=
  (firstn 50 content ++ (if (50 <? length content)%nat then [46; 46; 46]%N else []))%list.

Definition title_of (content : string) : string :=
  utf8 (title_units (code_units content)).

(** The chat object that replaces the active chat when the reply is in. *)
Definition updatedChat (um am : Message) (data : ChatData) (chat : Chat) : Chat :=
  {| chat_id := str_or (cd_chat_id data) (chat_id chat);
     chat_title :=
       if bool_decide (chat_title chat = "New Chat") && truthy_str (cd_chat_id data)
       then title_of (msg_content um) else chat_title chat;
     chat_messages :=
       filter (fun m => msg_id m <> msg_id um) (chat_messages chat) ++ [um; am];
     chat_createdAt := chat_createdAt chat |}.

Definition sorry_message (t : Stamp) (counter : Z) : Message :=
  {| msg_id := next_message_id t counter;
     msg_role := assistant;
     msg_content := "Sorry, I encountered an error. Please try again.";
     msg_timestamp := iso_now t;
     msg_plan := None;
     msg_request_id := None |}.

(** [sendMessage]. When the body of an ok answer is [null], the id of the
    reply has been built, and the counter incremented for it, before the
    read of [data.response] throws; the apology of the [catch] branch then
    takes the next counter value. *)
Definition sendMessage (t : Stamp) (s : Session) : Action Session ChatBody ChatData :=
  if blank (input s) || isLoading s then Skip
  else
    let um := userMessage t s in
    let active := activeChat s in
    Suspend
      (setIsLoading true
         (setInput ""
            (setChats (in_chat active (append_message um)) (bump_counter s))))
      (chat_request s)
      (fun out t2 cur =>
         let failed :=
           setChats (in_chat active (append_message (sorry_message t2 (messageIdCounter cur))))
                    (bump_counter cur) in
         setIsLoading false
           match out with
           | NetworkError _ => console_error "Chat error:" failed
           | Responded code body =>
               if ok_status code then
                 match body with
                 | SyntaxError _ => console_error "Chat error:" failed
                 | Json data =>
                     let am := {| msg_id := next_message_id t2 (messageIdCounter cur);
                                  msg_role := assistant;
                                  msg_content := cd_response data;
                                  msg_timestamp := iso_now t2;
                                  msg_plan := cd_plan data;
                                  msg_request_id := to_option (cd_request_id data) |} in
                     let replaced :=
                       setChats (in_chat active (updatedChat um am data)) (bump_counter cur) in
                     if existsb (fun chat => bool_decide (Some (chat_id chat) = active))
                                (chats (view cur))
                        && is_temp active && truthy_str (cd_chat_id data)
                     then setActiveChat (to_option (cd_chat_id data)) replaced
                     else replaced
                 end
               else console_error "Chat error:" failed
           | RespondedNull code _ =>
               if ok_status code then
                 console_error "Chat error:"
                   (setChats
                      (in_chat active
                         (append_message (sorry_message t2 (messageIdCounter cur + 1))))
                      (bump_counter (bump_counter cur)))
               else console_error "Chat error:" failed
           end).

Definition plan_request (plan : DatasetPlan) : HttpRequest PlanRequest :=
  {| req_method := POST;
     req_url := "/api/plan-and-sample";
     req_headers := [("Content-Type", "application/json")];
     req_cache := None;
     req_body := Some {| pr_query := plan_query plan;
                         pr_total_items := plan_total_items plan;
                         pr_data_type := plan_data_type plan |} |}.

(** The entry [executePlan] stores before it starts the poller. *)
Definition initial_status (requestId : string) (plan : DatasetPlan) : SamplingStatus :=
  {| request_id := requestId; status := "running"; progress := 0;
     total := plan_total_items plan; samples := Undefined |}.

Definition started_message (t : Stamp) (counter : Z) (requestId : field string) : Message :=
  {| msg_id := next_message_id t counter;
     msg_role := assistant;
     msg_content := "ðŸš€ Started dataset sampling! Request ID: " +:+ interpolate_str requestId;
     msg_timestamp := iso_now t;
     msg_plan := None;
     msg_request_id := to_option requestId |}.

Definition failed_message (t : Stamp) (counter : Z) : Message :=
  {| msg_id := next_message_id t counter;
     msg_role := assistant;
     msg_content :=
       "âŒ Failed to execute plan. Please try again or use the Build Tool manually.";
     msg_timestamp := iso_now t;
     msg_plan := None;
     msg_request_id := None |}.

(** [executePlan(plan)]; [has_callback] tells whether the component was
    given an [onPlanGenerated] prop. *)
Definition executePlan (has_callback : bool) (plan : DatasetPlan) (s : Session)
    : Action Session PlanRequest PlanResult :=
  let active := activeChat s in
  Suspend (setExecutingPlan true s) (plan_request plan) (fun out t cur =>
    let failed :=
      console_error "Execute plan error:"
        (setChats (in_chat active (append_message (failed_message t (messageIdCounter cur))))
                  (bump_counter cur)) in
    setExecutingPlan false
      match out with
      | NetworkError _ => failed
      | Responded code body =>
          if ok_status code then
            match body with
            | SyntaxError _ => failed
            | Json result =>
                let requestId := result_request_id result in
                let polled :=
                  match requestId with
                  | Val rid =>
                      if truthy_str requestId then
                        start_poller rid (default "" active)
                          (setSamplingStatus (insert rid (initial_status rid plan)) cur)
                      else cur
                  | _ => cur
                  end in
                let told :=
                  setChats (in_chat active
                              (append_message
                                 (started_message t (messageIdCounter polled) requestId)))
                           (bump_counter polled) in
                if has_callback then call_onPlanGenerated result told else told
            end
          else failed
      | RespondedNull _ _ => failed
      end).

End ChatActions.

(** ** FullDownload: the "Start Full Download" button *)

Module FullDownload.

(** The component state; [persist] is the constant [true]. *)
Record State := {
  loading : bool;
  status : jsvalue
}.

Definition initial : State := {| loading := false; status := Text "Awaiting plan..." |}.

Definition persist : bool := true.

(** [setStatus] with a string, and with a value that need not be one. *)
Definition setStatusValue (v : jsvalue) (s : State) : State :=
  {| loading := loading s; status := v |}.

Definition setStatus (msg : string) (s : State) : State :=
  setStatusValue (Text msg) s.

Definition setLoading (b : bool) (s : State) : State :=
  {| loading := b; status := status s |}.

Definition run_request (requestId : string) : HttpRequest Routes.StartRunBody :=
  {| req_method := POST;
     req_url := "/api/start-full-run";
     req_headers := [("Content-Type", "application/json")];
     req_cache := None;
     req_body := Some {| Routes.body_request_id := requestId;
                         Routes.body_persist := persist |} |}.

(** The state shown while the request is in flight. *)
Definition submitting (s : State) : State :=
  setStatus "Submitting full download job..." (setLoading true s).

(** [startFullRun], for the [requestId] prop of the component. *)
Definition startFullRun (requestId : option string) (s : State)
    : Handler Routes.StartRunBody Routes.StartRunData State :=
  match requestId with
  | Some rid =>
      if falsy_str requestId then
        Return (setStatus "No request ID found. Please plan first." s)
      else
        Await (run_request rid) (fun out =>
          setLoading false
            match out with
            | NetworkError msg => setStatus ("Error: " +:+ msg) (submitting s)
            | Responded code body =>
                match body with
                | SyntaxError msg => setStatus ("Error: " +:+ msg) (submitting s)
                | Json data =>
                    if negb (ok_status code) then
                      setStatusValue
                        (value_or (Routes.run_detail data) "Failed to start full run.")
                        (submitting s)
                    else
                      setStatus ("Full run submitted. Run ID: "
                                 +:+ ChatActions.interpolate_str (Routes.run_dagster_run_id data))
                                (submitting s)
                end
            | RespondedNull _ msg => setStatus ("Error: " +:+ msg) (submitting s)
            end)
  | None => Return (setStatus "No request ID found. Please plan first." s)
  end.

End FullDownload.

(** ** What the browser receives from a route handler *)

Module Wire.

Import Routes.


Definition run_body (p : ProxyPayload StartRunData) : option StartRunData :=
  match p with
  | Forwarded data => Some data
  | ForwardedNull => None
  | DetailJson d => Some {| run_detail := Val (Text d); run_dagster_run_id := Undefined;
                            run_request_id := Undefined |}
  | DetailValue v => Some {| run_detail := Val v; run_dagster_run_id := Undefined;
                             run_request_id := Undefined |}
  | ErrorJson _ | ErrorValue _ =>
      Some {| run_detail := Undefined; run_dagster_run_id := Undefined;
              run_request_id := Undefined |}
  end.

(** The outcome of a [fetch] of a route that answered [r], in a browser
    whose TypeError for a property read on [null] reads [type_error]. *)
Definition received {P D} (type_error : string) (read : P -> option D) (r : NextResponse P)
    : FetchOutcome D :=
  match read (payload r) with
  | Some data => Responded (status r) (Json data)
  | None => RespondedNull (status r) type_error
  end.

End Wire.

(** ** The sibling proxy routes *)

Module Siblings.

Import Routes.

(** What the read-only routes do with the backend's answer; they differ
    in the failure text only. *)
Definition relay {D} (failure : string) (out : FetchOutcome D) : NextResponse (ProxyPayload D) :=
  match out with
  | NetworkError _ => connect_failed
  | Responded code body =>
      if negb (ok_status code) then
        json_or_catch code (ErrorJson failure) connect_failed
      else
        match body with
        | SyntaxError _ => connect_failed
        | Json data => {| status := 200; payload := Forwarded data |}
        end
  | RespondedNull code _ =>
      if negb (ok_status code) then
        json_or_catch code (ErrorJson failure) connect_failed
      else {| status := 200; payload := ForwardedNull |}
  end.

Definition upstream (method : Method) (url : string) (cache : option string)
    : HttpRequest Empty_set :=
  {| req_method := method; req_url := url; req_headers := []; req_cache := cache;
     req_body := None |}.

Section Routes.

Context {D : Type}.

#[local] Abbreviation Route := (Handler Empty_set D (NextResponse (ProxyPayload D))).

(** [GET /api/chats] *)
Definition GET_chats : Route :=
  Await (upstream GET "http://localhost:8000/api/chats" (Some "no-store"))
        (relay "Failed to fetch chats").

(** [GET /api/chats/[id]] *)
Definition GET_chat (id : string) : Route :=
  Await (upstream GET ("http://localhost:8000/api/chats/" +:+ id) (Some "no-store"))
        (relay "Failed to fetch chat").

(** [DELETE /api/chats/[id]] *)
Definition DELETE_chat (id : string) : Route :=
  Await (upstream DELETE ("http://localhost:8000/api/chats/" +:+ id) None)
        (relay "Failed to delete chat").

(** [GET /api/runs] *)
Definition GET_runs : Route :=
  Await (upstream GET "http://localhost:8000/api/runs" (Some "no-store"))
        (relay "Failed to fetch runs").

(** [GET /api/runs/[id]] *)
Definition GET_run (id : string) : Route :=
  Await (upstream GET ("http://localhost:8000/api/runs/" +:+ id) (Some "no-store"))
        (relay "Failed to fetch run details").

(** [GET /api/datasets/[id]/preview] *)
Definition GET_preview (id : string) : Route :=
  Await (upstream GET ("http://localhost:8000/api/datasets/" +:+ id +:+ "/preview")
                  (Some "no-store"))
        (relay "Failed to fetch preview").

End Routes.

Section Chat.

(** [B] is the JSON body of the incoming request, [D] the parsed body of
    the backend's answer with its [detail] property. *)
Context {B D : Type}.
Variable detail_of : D -> field jsvalue.

Definition chat_upstream (body : B) : HttpRequest B :=
  {| req_method := POST;
     req_url := "http://localhost:8000/api/chat";
     req_headers := [("Content-Type", "application/json")];
     req_cache := None;
     req_body := Some body |}.

(** [POST /api/chat], given what [request.json()] gives. *)
Definition POST_chat (body : Parsed B) : Handler B D (NextResponse (ProxyPayload D)) :=
  match body with
  | SyntaxError _ => Return connect_failed
  | Json b =>
      Await (chat_upstream b) (fun out =>
        match out with
        | NetworkError _ => connect_failed
        | Responded code rbody =>
            match rbody with
            | SyntaxError _ => connect_failed
            | Json data =>
                if negb (ok_status code) then
                  json_or_catch code
                    (error_json (value_or (detail_of data) "Failed to process chat"))
                    connect_failed
                else {| status := 200; payload := Forwarded data |}
            end
        | RespondedNull code _ =>
            if negb (ok_status code) then connect_failed
            else {| status := 200; payload := ForwardedNull |}
        end)
  end.

End Chat.

End Siblings.

(** ** Code units and bytes *)

Module Utf16Facts.

Import ChatActions.

Local Open Scope N_scope.

Ltac div_lia := zify; Z.to_euclidean_division_equations; lia.

Ltac decide_tests :=
  repeat match goal with
         | |- context [N.ltb ?a ?b] => destruct (N.ltb_spec a b); try lia
         | |- context [N.leb ?a ?b] => destruct (N.leb_spec a b); try lia
         end.

Lemma byte_chr (n : N) : n < 256 -> byte (chr n) = n.
Proof. apply Ascii.N_ascii_embedding. Qed.

Lemma byte_bounded (c : Ascii.ascii) : byte c < 256.
Proof. apply Ascii.N_ascii_bounded. Qed.

(** *** Decoding one sequence *)

Lemma code_units_one (b : N) (r : string) :
  b < 128 -> code_units (String (chr b) r) = b :: code_units r.
Proof.
  intros H. cbn [code_units]. rewrite byte_chr by lia. decide_tests. reflexivity.
Qed.

Lemma code_units_two (b0 b1 : N) (r : string) :
  192 <= b0 < 224 -> 128 <= b1 < 192 ->
  code_units (String (chr b0) (String (chr b1) r))
  = ((b0 - 192) * 64 + (b1 - 128)) :: code_units r.
Proof.
  intros H0 H1. cbn [code_units]. rewrite !byte_chr by lia.
  unfold continuation. decide_tests. reflexivity.
Qed.

Lemma code_units_three (b0 b1 b2 : N) (r : string) :
  224 <= b0 < 240 -> 128 <= b1 < 192 -> 128 <= b2 < 192 ->
  code_units (String (chr b0) (String (chr b1) (String (chr b2) r)))
  = ((b0 - 224) * 4096 + (b1 - 128) * 64 + (b2 - 128)) :: code_units r.
Proof.
  intros H0 H1 H2. cbn [code_units]. rewrite !byte_chr by lia.
  unfold continuation. decide_tests. reflexivity.
Qed.

Lemma code_units_four (b0 b1 b2 b3 : N) (r : string) :
  240 <= b0 < 248 -> 128 <= b1 < 192 -> 128 <= b2 < 192 -> 128 <= b3 < 192 ->
  code_units (String (chr b0) (String (chr b1) (String (chr b2) (String (chr b3) r))))
  = let point := (b0 - 240) * 262144 + (b1 - 128) * 4096 + (b2 - 128) * 64 + (b3 - 128) in
    (55296 + (point - 65536) / 1024) :: (56320 + (point - 65536) mod 1024) :: code_units r.
Proof.
  intros H0 H1 H2 H3. cbn [code_units]. rewrite !byte_chr by lia.
  unfold continuation. decide_tests. reflexivity.
Qed.

(** *** The digits in base 64 of a code point *)

Lemma continuation_range (x : N) : 128 <= 128 + x mod 64 < 192.
Proof. div_lia. Qed.

Lemma two_lead_range (u : N) : 128 <= u < 2048 -> 192 <= 192 + u / 64 < 224.
Proof. intros H. div_lia. Qed.

Lemma two_bytes_back (u : N) : (192 + u / 64 - 192) * 64 + (128 + u mod 64 - 128) = u.
Proof. div_lia. Qed.

Lemma three_lead_range (u : N) : u < 65536 -> 224 <= 224 + u / 4096 < 240.
Proof. intros H. div_lia. Qed.

Lemma three_bytes_back (u : N) :
  (224 + u / 4096 - 224) * 4096 + (128 + (u / 64) mod 64 - 128) * 64 + (128 + u mod 64 - 128)
  = u.
Proof. div_lia. Qed.

Lemma four_lead_range (a c : N) :
  a < 1024 -> c < 1024 -> 240 <= 240 + (65536 + a * 1024 + c) / 262144 < 248.
Proof. intros Ha Hc. div_lia. Qed.

Lemma four_bytes_back (x : N) :
  (240 + x / 262144 - 240) * 262144 + (128 + (x / 4096) mod 64 - 128) * 4096
  + (128 + (x / 64) mod 64 - 128) * 64 + (128 + x mod 64 - 128)
  = x.
Proof. div_lia. Qed.

Lemma pair_high (a c : N) : c < 1024 -> (65536 + a * 1024 + c - 65536) / 1024 = a.
Proof. intros Hc. div_lia. Qed.

Lemma pair_low (a c : N) : c < 1024 -> (65536 + a * 1024 + c - 65536) mod 1024 = c.
Proof. intros Hc. div_lia. Qed.

Lemma high_bound (b0 b1 b2 b3 : N) :
  b0 <= 247 -> b1 < 192 -> b2 < 192 -> b3 < 192 ->
  55296 + ((b0 - 240) * 262144 + (b1 - 128) * 4096 + (b2 - 128) * 64 + (b3 - 128) - 65536)
          / 1024
  < 65536.
Proof. intros H0 H1 H2 H3. div_lia. Qed.

Lemma low_bound (x : N) : 56320 + x mod 1024 < 65536.
Proof. div_lia. Qed.

(** *** Encoding and decoding again *)

Lemma code_units_encoded_two (u : N) (r : string) :
  128 <= u < 2048 ->
  code_units (String (chr (192 + u / 64)) (String (chr (128 + u mod 64)) r))
  = u :: code_units r.
Proof.
  intros H. rewrite code_units_two;
    [|now apply two_lead_range | apply continuation_range].
  now rewrite two_bytes_back.
Qed.

Lemma code_units_encoded_three (u : N) (r : string) :
  u < 65536 -> code_units (three_bytes u r) = u :: code_units r.
Proof.
  intros H. unfold three_bytes. rewrite code_units_three;
    [|now apply three_lead_range | apply continuation_range | apply continuation_range].
  now rewrite three_bytes_back.
Qed.

Lemma code_units_encoded_pair (a c : N) (r : string) :
  a < 1024 -> c < 1024 ->
  let point := 65536 + a * 1024 + c in
  code_units
    (String (chr (240 + point / 262144))
       (String (chr (128 + (point / 4096) mod 64))
          (String (chr (128 + (point / 64) mod 64))
             (String (chr (128 + point mod 64)) r))))
  = (55296 + a) :: (56320 + c) :: code_units r.
Proof.
  intros Ha Hc point. rewrite code_units_four;
    [|now apply four_lead_range | apply continuation_range | apply continuation_range
     |apply continuation_range].
  cbv zeta. rewrite four_bytes_back. unfold point.
  now rewrite pair_high, pair_low.
Qed.

(** The bytes that stand for a sequence of 16-bit code units give back
    exactly that sequence, surrogates with or without partner included. *)
Lemma code_units_utf8 (us : list N) :
  Forall (fun u => u < 65536) us -> code_units (utf8 us) = us.
Proof.
  assert (H : forall n us, (length us <= n)%nat ->
                Forall (fun u => u < 65536) us -> code_units (utf8 us) = us).
  { clear us. induction n as [|n IH]; intros [|u rest] Hlen Hall; try reflexivity;
      [simpl in Hlen; lia|].
    apply Forall_cons in Hall. destruct Hall as [Hu Hrest].
    assert (IHrest : code_units (utf8 rest) = rest)
      by (apply IH; [simpl in Hlen; lia | exact Hrest]).
    cbn [utf8].
    destruct (N.ltb_spec u 128) as [H1|H1].
    { rewrite code_units_one by exact H1. now rewrite IHrest. }
    destruct (N.ltb_spec u 2048) as [H2|H2].
    { rewrite code_units_encoded_two by (split; assumption). now rewrite IHrest. }
    destruct (high_surrogate u) eqn:Hhigh;
      [|now rewrite code_units_encoded_three, IHrest].
    destruct rest as [|l rest']; [now rewrite code_units_encoded_three|].
    destruct (low_surrogate l) eqn:Hlow;
      [|now rewrite code_units_encoded_three, IHrest].
    apply Forall_cons in Hrest. destruct Hrest as [Hl Hrest'].
    unfold high_surrogate, low_surrogate in Hhigh, Hlow.
    apply andb_true_iff in Hhigh, Hlow.
    rewrite N.leb_le, N.ltb_lt in Hhigh, Hlow.
    assert (Ha : u - 55296 < 1024) by lia. assert (Hc : l - 56320 < 1024) by lia.
    pose proof (code_units_encoded_pair (u - 55296) (l - 56320) (utf8 rest') Ha Hc) as Hpair.
    cbv zeta in Hpair. rewrite Hpair.
    rewrite IH; [|simpl in Hlen; lia | exact Hrest'].
    f_equal; [lia|]. f_equal. lia. }
  apply (H (length us)). lia.
Qed.

(** Every code unit is a 16-bit number. *)
Lemma code_units_bounded (s : string) : Forall (fun u => u < 65536) (code_units s).
Proof.
  assert (H : forall n s, (String.length s <= n)%nat ->
                Forall (fun u => u < 65536) (code_units s)).
  { clear s. induction n as [|n IH]; intros [|c0 r0] Hlen;
      [constructor | simpl in Hlen; lia | constructor |].
    cbn [code_units]. pose proof (byte_bounded c0) as Hb0.
    assert (Halone : Forall (fun u => u < 65536) (byte c0 :: code_units r0)).
    { constructor; [lia | apply IH; simpl in Hlen; lia]. }
    destruct ((byte c0 <? 192) || (247 <? byte c0)) eqn:E0; [exact Halone|].
    apply orb_false_iff in E0. destruct E0 as [E0 E0'].
    apply N.ltb_ge in E0, E0'.
    destruct r0 as [|c1 r1]; [exact Halone|]. pose proof (byte_bounded c1) as Hb1.
    destruct (continuation (byte c1)) eqn:K1; [|exact Halone]. cbn [negb].
    unfold continuation in K1. apply andb_true_iff in K1. rewrite N.leb_le, N.ltb_lt in K1.
    destruct (byte c0 <? 224).
    { constructor; [lia | apply IH; simpl in Hlen; lia]. }
    destruct r1 as [|c2 r2]; [exact Halone|]. pose proof (byte_bounded c2) as Hb2.
    destruct (continuation (byte c2)) eqn:K2; [|exact Halone]. cbn [negb].
    unfold continuation in K2. apply andb_true_iff in K2. rewrite N.leb_le, N.ltb_lt in K2.
    destruct (byte c0 <? 240) eqn:E2.
    { apply N.ltb_lt in E2. constructor; [lia | apply IH; simpl in Hlen; lia]. }
    destruct r2 as [|c3 r3]; [exact Halone|]. pose proof (byte_bounded c3) as Hb3.
    destruct (continuation (byte c3)) eqn:K3; [|exact Halone]. cbn [negb].
    unfold continuation in K3. apply andb_true_iff in K3. rewrite N.leb_le, N.ltb_lt in K3.
    cbv zeta.
    constructor; [apply high_bound; lia|].
    constructor; [apply low_bound | apply IH; simpl in Hlen; lia]. }
  apply (H (String.length s)). lia.
Qed.

(** The code units of a title are the first 50 code units of the text,
    followed by three full stops when the text has more than 50. *)
Lemma title_of_units (content : string) :
  code_units (title_of content) = title_units (code_units content).
Proof.
  unfold title_of. apply code_units_utf8. unfold title_units.
  apply Forall_app. split; [apply Forall_take, code_units_bounded|].
  destruct (50 <? length (code_units content))%nat; repeat constructor.
Qed.

End Utf16Facts.

(** ** Facts about the chat actions *)

Module ChatActionsFacts.

Import ChatInterface ChatActions.

(** The active chat, if there is one, is in the list. *)
Definition valid_active (s : Session) : Prop :=
  match activeChat s with
  | None => True
  | Some a => a ∈ map chat_id (chats (view s))
  end.

Definition chat_a : Chat :=
  {| chat_id := "a"; chat_title := "First"; chat_messages := [];
     chat_createdAt := "2024-01-01T00:00:00.000Z" |}.

Definition chat_b : Chat :=
  {| chat_id := "b"; chat_title := "Second"; chat_messages := [];
     chat_createdAt := "2024-01-02T00:00:00.000Z" |}.

(** A session with the chats "a" and "b", "a" active, "hello" typed. *)
Definition two_chats : Session :=
  {| view := {| samplingStatus := ∅; chats := [chat_a; chat_b] |};
     activeChat := Some "a"; input := "hello"; isLoading := false;
     executingPlan := false; messageIdCounter := 0; pollers := [];
     plans_generated := []; errors := [] |}.

(** A session with the single chat "a". *)
Definition one_chat : Session :=
  {| view := {| samplingStatus := ∅; chats := [chat_a] |};
     activeChat := Some "a"; input := "hello"; isLoading := false;
     executingPlan := false; messageIdCounter := 0; pollers := [];
     plans_generated := []; errors := [] |}.

Lemma first_id_in (cs : list Chat) (a : string) :
  first_id cs = Some a -> a ∈ map chat_id cs.
Proof.
  destruct cs as [|c cs]; [discriminate|]. simpl.
  case_bool_decide; [discriminate|]. intros [= <-]. apply list_elem_of_here.
Qed.

Lemma id_survives_filter (cs : list Chat) (a chatId : string) :
  a <> chatId -> a ∈ map chat_id cs ->
  a ∈ map chat_id (filter (fun c => chat_id c <> chatId) cs).
Proof.
  intros Hne Ha. apply list_elem_of_In, in_map_iff in Ha. destruct Ha as (c & <- & Hc).
  apply list_elem_of_In, in_map_iff. exists c. split; [reflexivity|].
  apply list_elem_of_In, list_elem_of_filter. split; [exact Hne|].
  now apply list_elem_of_In.
Qed.

(** The outcomes in which the request was answered, with whatever status
    and body. *)
Definition answered {D} (out : FetchOutcome D) : bool :=
  match out with
  | NetworkError _ => false
  | _ => true
  end.

(** X1. [deleteChat] with a list of two or more chats (or none), once the
    DELETE request has been answered, whatever the status and the body of
    the answer: the chat list is exactly the old one without the chats of
    that id, in the old order, so the id is gone from it; the active chat
    is the old one if that was another chat, and otherwise the first chat
    left, or none when no chat is left or the first has an empty id; if
    the active chat was in the list before, the active chat afterwards is
    in the list or there is none; the sampling status, the input box and
    the message counter are untouched. *)
Theorem deleteChat_removes (chatId : string) (s : Session) (out : FetchOutcome unit)
    (t : Stamp) :
  length (chats (view s)) <> 1%nat ->
  answered out = true ->
  let s' := finish s (deleteChat chatId s) out t in
  chats (view s') = filter (fun c => chat_id c <> chatId) (chats (view s))
  /\ (chatId ∉ map chat_id (chats (view s')))
  /\ activeChat s'
     = (if bool_decide (activeChat s = Some chatId)
        then match filter (fun c => chat_id c <> chatId) (chats (view s)) with
             | [] => None
             | c :: _ => if bool_decide (chat_id c = "") then None else Some (chat_id c)
             end
        else activeChat s)
  /\ (valid_active s -> valid_active s')
  /\ samplingStatus (view s') = samplingStatus (view s)
  /\ input s' = input s
  /\ messageIdCounter s' = messageIdCounter s
  /\ errors s' = errors s.
Proof.
  intros Hlen Hans s'.
  assert (Hchats : chats (view s')
                   = filter (fun c => chat_id c <> chatId) (chats (view s))).
  { unfold s', deleteChat, finish. rewrite bool_decide_eq_false_2 by exact Hlen.
    destruct out; [discriminate| |];
      destruct (bool_decide (activeChat s = Some chatId)); reflexivity. }
  assert (Hactive : activeChat s'
                    = if bool_decide (activeChat s = Some chatId)
                      then first_id (filter (fun c => chat_id c <> chatId) (chats (view s)))
                      else activeChat s).
  { unfold s', deleteChat, finish. rewrite bool_decide_eq_false_2 by exact Hlen.
    destruct out; [discriminate| |];
      destruct (bool_decide (activeChat s = Some chatId)); reflexivity. }
  split; [exact Hchats|]. split; [|split; [exact Hactive|split; [|]]].
  - rewrite Hchats. intros Hin. apply list_elem_of_In, in_map_iff in Hin.
    destruct Hin as (c & Hid & Hc). apply list_elem_of_In, list_elem_of_filter in Hc.
    destruct Hc as [Hne _]. contradiction.
  - unfold valid_active. rewrite Hactive, Hchats. intros Hvalid.
    case_bool_decide as Hsame.
    + destruct (first_id _) as [a|] eqn:Hfirst; [|exact I]. now apply first_id_in.
    + destruct (activeChat s) as [a|]; [|exact I].
      apply id_survives_filter; [congruence | exact Hvalid].
  - unfold s', deleteChat, finish. rewrite bool_decide_eq_false_2 by exact Hlen.
    destruct out; [discriminate| |];
      destruct (bool_decide (activeChat s = Some chatId)); repeat split.
Qed.

Lemma deleteChat_removes_witness :
  length (chats (view two_chats)) <> 1%nat
  /\ answered (Responded 500 (SyntaxError "") : FetchOutcome unit) = true
  /\ chats (view (finish two_chats (deleteChat "a" two_chats)
                    (Responded 500 (SyntaxError "")) Samples.st0))
     = [chat_b]
  /\ activeChat (finish two_chats (deleteChat "a" two_chats)
                   (Responded 500 (SyntaxError "")) Samples.st0)
     = Some "b".
Proof.
  assert (Hlen : length (chats (view two_chats)) <> 1%nat) by discriminate.
  split; [exact Hlen|]. split; [reflexivity|].
  destruct (deleteChat_removes "a" two_chats (Responded 500 (SyntaxError "")) Samples.st0
              Hlen eq_refl) as (Hchats & _ & Hactive & _).
  split; [rewrite Hchats; reflexivity | rewrite Hactive; reflexivity].
Defined.

Lemma filter_other_ids (cs : list Chat) (chatId : string) :
  chatId ∉ map chat_id cs -> filter (fun c => chat_id c <> chatId) cs = cs.
Proof.
  induction cs as [|c cs IH]; [reflexivity|]. simpl. intros Hnot.
  rewrite filter_cons_True.
  - f_equal. apply IH. intros Hin. apply Hnot. now apply list_elem_of_further.
  - intros Hid. apply Hnot. rewrite Hid. apply list_elem_of_here.
Qed.

Lemma filter_drops_one (cs : list Chat) (chatId : string) :
  NoDup (map chat_id cs) ->
  (length cs <= S (length (filter (fun c => chat_id c <> chatId) cs)))%nat.
Proof.
  induction cs as [|c cs IH]; simpl; intros Hnd; [lia|].
  apply NoDup_cons in Hnd. destruct Hnd as [Hfresh Hnd].
  destruct (decide (chat_id c = chatId)) as [Hid|Hid].
  - rewrite filter_cons_False by (intros H'; now apply H').
    rewrite filter_other_ids; [lia|]. now rewrite <- Hid.
  - rewrite filter_cons_True by exact Hid. simpl. specialize (IH Hnd). lia.
Qed.

(** X2. [deleteChat] never leaves the chat list empty. With exactly one
    chat in the list it returns without sending a request. With a
    non-empty list of chats of distinct ids, at least one chat is left in
    every outcome of the request. And when the DELETE request fails to be
    sent or answered, the chats, the sampling status and the active chat
    stay as they are; the failure is only logged. *)
Theorem deleteChat_keeps (chatId : string) (s : Session) (t : Stamp) :
  (length (chats (view s)) = 1%nat ->
   deleteChat chatId s = Skip
   /\ forall out, finish s (deleteChat chatId s) out t = s)
  /\ (chats (view s) <> [] -> NoDup (map chat_id (chats (view s))) ->
      forall out, chats (view (finish s (deleteChat chatId s) out t)) <> [])
  /\ (forall message,
        let s' := finish s (deleteChat chatId s) (NetworkError message) t in
        view s' = view s /\ activeChat s' = activeChat s).
Proof.
  split; [|split].
  - intros Hlen. unfold deleteChat. rewrite bool_decide_eq_true_2 by exact Hlen.
    split; [reflexivity|]. intros out. reflexivity.
  - intros Hsome Hnd out. unfold deleteChat, finish.
    case_bool_decide as Hlen; [exact Hsome|].
    pose proof (filter_drops_one (chats (view s)) chatId Hnd) as Hdrop.
    assert (Hleft : filter (fun c => chat_id c <> chatId) (chats (view s)) <> []).
    { intros Hnil. rewrite Hnil in Hdrop. simpl in Hdrop.
      destruct (chats (view s)) as [|c [|c2 cs]]; simpl in *; [contradiction|lia|lia]. }
    destruct out as [msg|code body|code msg]; [exact Hsome| |];
      destruct (bool_decide (activeChat s = Some chatId)); exact Hleft.
  - intros message. unfold deleteChat, finish.
    case_bool_decide; split; reflexivity.
Qed.

Lemma two_chats_distinct : NoDup (map chat_id (chats (view two_chats))).
Proof.
  apply NoDup_cons. split; [|apply NoDup_singleton].
  intros Hin. apply list_elem_of_singleton in Hin. discriminate.
Qed.

Lemma deleteChat_keeps_witness :
  length (chats (view one_chat)) = 1%nat
  /\ chats (view two_chats) <> []
  /\ NoDup (map chat_id (chats (view two_chats)))
  /\ action_sent (deleteChat "a" one_chat) = []
  /\ chats (view (finish two_chats (deleteChat "a" two_chats)
                    (Responded 200 (Json tt)) Samples.st0)) <> [].
Proof.
  assert (Hsome : chats (view two_chats) <> []) by discriminate.
  split; [reflexivity|]. split; [exact Hsome|]. split; [exact two_chats_distinct|].
  destruct (deleteChat_keeps "a" one_chat Samples.st0) as [Hone _].
  destruct (Hone eq_refl) as [Hskip _].
  destruct (deleteChat_keeps "a" two_chats Samples.st0) as (_ & Hleft & _).
  split; [now rewrite Hskip|]. apply (Hleft Hsome two_chats_distinct).
Defined.

(** *** [sendMessage] *)

Lemma blank_spec (text : string) :
  blank text = forallb BuildForm.is_white_space (code_units text).
Proof. apply BuildFormFacts.blank_iff_trim_empty. Qed.

(** A title is the text itself up to 50 code units, and never longer
    than 53. *)
Lemma title_units_short (content : BuildForm.jsstring) :
  (length content <= 50)%nat -> title_units content = content.
Proof.
  intros H. unfold title_units. rewrite firstn_all2 by exact H.
  destruct (Nat.ltb_spec 50 (length content)); [lia|]. apply app_nil_r.
Qed.

Lemma title_units_length (content : BuildForm.jsstring) :
  (length (title_units content) <= 53)%nat.
Proof.
  unfold title_units. rewrite length_app, length_firstn.
  pose proof (Nat.le_min_l 50 (length content)).
  destruct (50 <? length content)%nat; cbn [length]; lia.
Qed.

Lemma title_units_long (content : BuildForm.jsstring) :
  (50 < length content)%nat ->
  title_units content = (firstn 50 content ++ [46; 46; 46]%N)%list
  /\ length (title_units content) = 53%nat.
Proof.
  intros H. unfold title_units. destruct (Nat.ltb_spec 50 (length content)); [|lia].
  split; [reflexivity|]. rewrite length_app, length_firstn. cbn [length]. lia.
Qed.

Lemma in_chat_ids (active : option string) (f : Chat -> Chat) (cs : list Chat) :
  (forall c, chat_id (f c) = chat_id c) ->
  map chat_id (in_chat active f cs) = map chat_id cs.
Proof.
  intros Hf. unfold in_chat. rewrite map_map. apply map_ext.
  intros c. case_bool_decide; [apply Hf | reflexivity].
Qed.

Lemma in_chat_compose (active : option string) (f g : Chat -> Chat) (cs : list Chat) :
  (forall c, chat_id (g c) = chat_id c) ->
  in_chat active f (in_chat active g cs) = in_chat active (fun c => f (g c)) cs.
Proof.
  intros Hg. unfold in_chat. rewrite map_map. apply map_ext. intros c.
  simpl. destruct (bool_decide (Some (chat_id c) = active)) eqn:Hc.
  - now rewrite Hg, Hc.
  - now rewrite Hc.
Qed.

Lemma in_chat_Forall2 (active : option string) (f : Chat -> Chat) (cs : list Chat) :
  Forall2 (fun c c' => c' = if bool_decide (Some (chat_id c) = active) then f c else c)
          cs (in_chat active f cs).
Proof. unfold in_chat. induction cs; simpl; constructor; auto. Qed.

(** The reply message [sendMessage] builds from the answer. *)
Definition reply (t2 : Stamp) (counter : Z) (data : ChatData) : Message :=
  {| msg_id := next_message_id t2 counter;
     msg_role := assistant;
     msg_content := cd_response data;
     msg_timestamp := iso_now t2;
     msg_plan := cd_plan data;
     msg_request_id := to_option (cd_request_id data) |}.

Lemma sendMessage_chats_reply (t t2 : Stamp) (s : Session) (code : Z) (data : ChatData) :
  blank (input s) = false -> isLoading s = false -> ok_status code = true ->
  chats (view (finish s (sendMessage t s) (Responded code (Json data)) t2))
  = in_chat (activeChat s)
      (fun c => updatedChat (userMessage t s) (reply t2 (messageIdCounter s + 1) data) data
                  (append_message (userMessage t s) c))
      (chats (view s)).
Proof.
  intros Hb Hl Hok. unfold sendMessage, finish. rewrite Hb, Hl. simpl. rewrite Hok.
  match goal with |- context [if ?b then _ else _] => destruct b end;
    simpl; now rewrite in_chat_compose.
Qed.

(** The counter value the apology is numbered from: one increment for the
    user's message, and one more when the id of a reply was built before
    the body turned out to be [null]. *)
Definition apology_counter (s : Session) (out : FetchOutcome ChatData) : Z :=
  match out with
  | RespondedNull code _ => if ok_status code then messageIdCounter s + 2
                            else messageIdCounter s + 1
  | _ => messageIdCounter s + 1
  end.

Lemma sendMessage_chats_failed (t t2 : Stamp) (s : Session) (out : FetchOutcome ChatData) :
  blank (input s) = false -> isLoading s = false ->
  match out with
  | Responded code (Json _) => ok_status code = false
  | _ => True
  end ->
  chats (view (finish s (sendMessage t s) out t2))
  = in_chat (activeChat s)
      (fun c => append_message (sorry_message t2 (apology_counter s out))
                  (append_message (userMessage t s) c))
      (chats (view s)).
Proof.
  intros Hb Hl Hout. unfold sendMessage, finish, apology_counter. rewrite Hb, Hl. simpl.
  destruct out as [msg|code [msg|data]|code msg]; simpl.
  - now rewrite in_chat_compose.
  - destruct (ok_status code); simpl; now rewrite in_chat_compose.
  - rewrite Hout. simpl. now rewrite in_chat_compose.
  - destruct (ok_status code); simpl; rewrite in_chat_compose by reflexivity;
      [|reflexivity].
    replace (messageIdCounter s + 1 + 1) with (messageIdCounter s + 2) by lia.
    reflexivity.
Qed.

(** X3. [sendMessage] does nothing, and sends nothing, when the input is
    empty or white space only or while a message is being sent; white
    space is what [trim] strips from the UTF-16 code units of the input,
    the ideographic space and the no-break space included. In any other
    case it posts one request to /api/chat that carries the input as
    typed, and the chat id only if the active chat is not a temporary
    one. *)
Theorem sendMessage_guard (t : Stamp) (s : Session) :
  (forallb BuildForm.is_white_space (code_units (input s)) = true \/ isLoading s = true ->
   sendMessage t s = Skip)
  /\ (forallb BuildForm.is_white_space (code_units (input s)) = false ->
      isLoading s = false ->
      action_sent (sendMessage t s) = [chat_request s]
      /\ req_body (chat_request s)
         = Some {| cb_message := input s;
                   cb_chat_id := if is_temp (activeChat s) then None else activeChat s |}).
Proof.
  unfold sendMessage. rewrite blank_spec. split.
  - intros [-> | ->]; [reflexivity | now rewrite orb_true_r].
  - intros -> ->. split; reflexivity.
Qed.

(** An ideographic space, a no-break space and a space. *)
Definition wide_blank : string := "　  ".

Lemma sendMessage_guard_witness :
  (forallb BuildForm.is_white_space (code_units wide_blank) = true \/ false = true)
  /\ code_units wide_blank = [12288; 160; 32]%N
  /\ sendMessage Samples.st0 (setInput wide_blank two_chats) = Skip
  /\ action_sent (sendMessage Samples.st0 two_chats) = [chat_request two_chats].
Proof.
  split; [left; reflexivity|]. split; [reflexivity|]. split.
  - apply (sendMessage_guard Samples.st0 (setInput wide_blank two_chats)). left. reflexivity.
  - apply (sendMessage_guard Samples.st0 two_chats); reflexivity.
Defined.

(** X4. After an ok reply whose body parses and is not [null], every chat
    with the active id ends with the user's message followed by the
    assistant's reply, and the messages before these two are the earlier
    ones without any message of the user message's id, so the copy added
    while waiting is not shown twice. The title changes only for a chat
    still titled "New Chat" and only when the answer carries a chat id; it
    becomes the first 50 UTF-16 code units of the input, with "..."
    appended when the input has more than 50, at most 53 code units in
    all; an input of up to 50 code units is taken whole. Chats with another
    id are untouched, the input box is empty and the busy flag is off. *)
Theorem sendMessage_reply (t t2 : Stamp) (s : Session) (code : Z) (data : ChatData) :
  forallb BuildForm.is_white_space (code_units (input s)) = false ->
  isLoading s = false ->
  ok_status code = true ->
  let s' := finish s (sendMessage t s) (Responded code (Json data)) t2 in
  let um := userMessage t s in
  Forall2 (fun c c' =>
             if bool_decide (Some (chat_id c) = activeChat s) then
               (exists am,
                  chat_messages c'
                  = (filter (fun m => msg_id m <> msg_id um) (chat_messages c) ++ [um; am])%list
                  /\ msg_role am = assistant
                  /\ msg_content am = cd_response data)
               /\ (if bool_decide (chat_title c = "New Chat") && truthy_str (cd_chat_id data)
                   then chat_title c' = title_of (input s)
                        /\ code_units (chat_title c')
                           = (firstn 50 (code_units (input s))
                              ++ (if (50 <? length (code_units (input s)))%nat
                                  then code_units "..." else []))%list
                        /\ (length (code_units (chat_title c')) <= 53)%nat
                        /\ ((length (code_units (input s)) <= 50)%nat ->
                            code_units (chat_title c') = code_units (input s))
                   else chat_title c' = chat_title c)
             else c' = c)
          (chats (view s)) (chats (view s'))
  /\ input s' = ""
  /\ isLoading s' = false.
Proof.
  intros Hb Hl Hok s' um. rewrite <- blank_spec in Hb. split.
  - unfold s'. rewrite sendMessage_chats_reply by assumption.
    eapply Forall2_impl; [apply in_chat_Forall2|].
    intros c c' ->. simpl. case_bool_decide; [|reflexivity]. split.
    + exists (reply t2 (messageIdCounter s + 1) data).
      split; [|split; reflexivity]. simpl.
      rewrite filter_app, (filter_cons_False _ um) by (intros H'; now apply H').
      rewrite filter_nil, app_nil_r. reflexivity.
    + simpl.
      destruct (bool_decide (chat_title c = "New Chat") && truthy_str (cd_chat_id data));
        [|reflexivity].
      rewrite Utf16Facts.title_of_units.
      split; [reflexivity|]. split; [reflexivity|].
      split; [apply title_units_length | apply title_units_short].
  - unfold s', sendMessage, finish. rewrite Hb, Hl. simpl. rewrite Hok.
    match goal with |- context [if ?b then _ else _] => destruct b end; split; reflexivity.
Qed.

Lemma sendMessage_reply_witness :
  let s' := finish two_chats (sendMessage Samples.st0 two_chats)
              (Responded 200 (Json {| cd_response := "hi"; cd_plan := None;
                                      cd_request_id := Undefined;
                                      cd_chat_id := Val "a" |})) Samples.st0 in
  forallb BuildForm.is_white_space (code_units (input two_chats)) = false
  /\ isLoading two_chats = false
  /\ ok_status 200 = true
  /\ input s' = "" /\ isLoading s' = false.
Proof.
  intros s'. split; [reflexivity|]. split; [reflexivity|]. split; [reflexivity|].
  apply (sendMessage_reply Samples.st0 Samples.st0 two_chats 200
           {| cd_response := "hi"; cd_plan := None; cd_request_id := Undefined;
              cd_chat_id := Val "a" |} eq_refl eq_refl eq_refl).
Defined.

(** Twenty euro signs are sixty bytes and twenty code units: as a title
    they are kept whole. An ideographic space is white space. *)
Lemma title_of_counts_code_units :
  title_of "€€€€€€€€€€€€€€€€€€€€" = "€€€€€€€€€€€€€€€€€€€€"
  /\ blank "　" = true.
Proof. split; vm_compute; reflexivity. Qed.

Lemma active_is_matched (s : Session) (a : string) :
  activeChat s = Some a -> a ∈ map chat_id (chats (view s)) ->
  exists c, c ∈ chats (view s) /\ Some (chat_id c) = activeChat s.
Proof.
  intros Ha Hin. apply list_elem_of_In, in_map_iff in Hin. destruct Hin as (c & Hid & Hc).
  exists c. split; [now apply list_elem_of_In | congruence].
Qed.

(** The answers of /api/chat that keep the active chat id in step with
    the chat list: the active chat is a temporary one, or the answer
    carries no chat id, or it carries the id of the active chat. *)
Definition keeps_chat_id (s : Session) (out : FetchOutcome ChatData) : Prop :=
  match out with
  | Responded code (Json data) =>
      ok_status code = true ->
      is_temp (activeChat s) = true
      \/ truthy_str (cd_chat_id data) = false
      \/ to_option (cd_chat_id data) = activeChat s
  | _ => True
  end.

Lemma sendMessage_active (t t2 : Stamp) (s : Session) (out : FetchOutcome ChatData) :
  blank (input s) = false -> isLoading s = false ->
  activeChat (finish s (sendMessage t s) out t2)
  = match out with
    | Responded code (Json data) =>
        if ok_status code
           && (existsb (fun chat => bool_decide (Some (chat_id chat) = activeChat s))
                       (chats (view s))
               && is_temp (activeChat s) && truthy_str (cd_chat_id data))
        then to_option (cd_chat_id data) else activeChat s
    | _ => activeChat s
    end.
Proof.
  intros Hb Hl. unfold sendMessage, finish. rewrite Hb, Hl. simpl.
  destruct out as [msg|code [msg|data]|code msg]; simpl; try reflexivity;
    [| |destruct (ok_status code); reflexivity].
  - destruct (ok_status code); reflexivity.
  - destruct (ok_status code); simpl; [|reflexivity].
    assert (Hsame : existsb (fun chat => bool_decide (Some (chat_id chat) = activeChat s))
                      (in_chat (activeChat s) (append_message (userMessage t s))
                         (chats (view s)))
                    = existsb (fun chat => bool_decide (Some (chat_id chat) = activeChat s))
                        (chats (view s))).
    { unfold in_chat. induction (chats (view s)) as [|c cs IH]; [reflexivity|].
      simpl. rewrite IH. f_equal.
      destruct (bool_decide (Some (chat_id c) = activeChat s)) eqn:Hc; simpl; exact Hc. }
    rewrite Hsame.
    match goal with |- context [if ?b then _ else _] => destruct b end; reflexivity.
Qed.

(** X5. If the active chat is in the chat list when a message is sent,
    it is in the list after the answer as well, in every outcome, provided
    the answer does not rename a chat that already has a permanent id: the
    active chat is temporary, or the answer has no chat id, or it has the
    active chat's id. A temporary chat that gets an id from the answer
    becomes active under that id. *)
Theorem sendMessage_keeps_active (t t2 : Stamp) (s : Session) (out : FetchOutcome ChatData) :
  forallb BuildForm.is_white_space (code_units (input s)) = false ->
  isLoading s = false ->
  valid_active s ->
  keeps_chat_id s out ->
  valid_active (finish s (sendMessage t s) out t2).
Proof.
  intros Hb Hl Hvalid Hkeep. rewrite <- blank_spec in Hb.
  unfold valid_active in *. rewrite sendMessage_active by assumption.
  destruct out as [msg|code [msg|data]|code msg];
    [| | |destruct (activeChat s) as [a|]; [|exact I];
           rewrite sendMessage_chats_failed, in_chat_ids by auto; exact Hvalid].
  - destruct (activeChat s) as [a|]; [|exact I].
    rewrite sendMessage_chats_failed, in_chat_ids by auto. exact Hvalid.
  - destruct (activeChat s) as [a|]; [|exact I].
    rewrite sendMessage_chats_failed, in_chat_ids by auto. exact Hvalid.
  - destruct (ok_status code) eqn:Hok; simpl.
    + rewrite sendMessage_chats_reply by assumption.
      destruct (activeChat s) as [a|] eqn:Ha;
        [|simpl; rewrite andb_false_r; exact I].
      destruct (active_is_matched s a Ha Hvalid) as (c & Hc & Hmatch).
      assert (Hex : existsb (fun chat => bool_decide (Some (chat_id chat) = Some a))
                      (chats (view s)) = true).
      { apply existsb_exists. exists c. split; [now apply list_elem_of_In|].
        apply bool_decide_eq_true. congruence. }
      rewrite Hex. simpl.
      assert (Hnew : str_or (cd_chat_id data) a
                     ∈ map chat_id
                         (in_chat (Some a)
                            (fun c0 => updatedChat (userMessage t s)
                                         (reply t2 (messageIdCounter s + 1) data) data
                                         (append_message (userMessage t s) c0))
                            (chats (view s)))).
      { apply list_elem_of_In, in_map_iff.
        exists (updatedChat (userMessage t s) (reply t2 (messageIdCounter s + 1) data) data
                  (append_message (userMessage t s) c)).
        split; [simpl; congruence|]. unfold in_chat. apply in_map_iff. exists c.
        split; [|now apply list_elem_of_In].
        rewrite bool_decide_eq_true_2 by congruence. reflexivity. }
      unfold keeps_chat_id in Hkeep. specialize (Hkeep Hok). rewrite Ha in Hkeep.
      simpl in Hkeep. destruct (String.prefix "temp-" a) eqn:Htemp; simpl.
      * destruct (cd_chat_id data) as [| |v] eqn:Hid; simpl in *; try exact Hnew.
        destruct (decide (v = "")) as [->|Hv];
          [rewrite bool_decide_eq_true_2 by reflexivity
          |rewrite bool_decide_eq_false_2 by exact Hv]; simpl; exact Hnew.
      * destruct Hkeep as [Hk | [Hk | Hk]]; [discriminate | |].
        -- destruct (cd_chat_id data) as [| |v]; simpl in *; try exact Hnew.
           destruct (decide (v = "")) as [->|Hv]; [exact Hnew|].
           rewrite bool_decide_eq_false_2 in Hk by exact Hv. discriminate.
        -- destruct (cd_chat_id data) as [| |v]; simpl in *; try discriminate.
           injection Hk as ->. destruct (decide (a = "")); exact Hnew.
    + destruct (activeChat s) as [a|]; [|exact I].
      rewrite sendMessage_chats_failed, in_chat_ids by auto. exact Hvalid.
Qed.

(** A new chat, created and then used for a first message that the
    backend files under the id "c42". *)
Definition fresh_session : Session :=
  setInput "hello" (createNewChat Samples.st0 one_chat).

Definition filed_as_c42 : FetchOutcome ChatData :=
  Responded 200 (Json {| cd_response := "hi"; cd_plan := None;
                         cd_request_id := Undefined; cd_chat_id := Val "c42" |}).

Lemma sendMessage_keeps_active_witness :
  forallb BuildForm.is_white_space (code_units (input fresh_session)) = false
  /\ isLoading fresh_session = false
  /\ valid_active fresh_session
  /\ keeps_chat_id fresh_session filed_as_c42
  /\ valid_active (finish fresh_session (sendMessage Samples.st0 fresh_session)
                     filed_as_c42 Samples.st0).
Proof.
  assert (Hvalid : valid_active fresh_session) by apply list_elem_of_here.
  assert (Hkeep : keeps_chat_id fresh_session filed_as_c42) by (intros _; left; reflexivity).
  split; [reflexivity|]. split; [reflexivity|]. split; [exact Hvalid|].
  split; [exact Hkeep|].
  apply (sendMessage_keeps_active Samples.st0 Samples.st0 fresh_session filed_as_c42
           eq_refl eq_refl Hvalid Hkeep).
Defined.

(** The outcomes [sendMessage] treats as a failure: the fetch throws, the
    answer is not ok, or its body does not parse or is [null]. *)
Definition chat_failed (out : FetchOutcome ChatData) : Prop :=
  match out with
  | Responded code (Json _) => ok_status code = false
  | _ => True
  end.

(** X6. When the request to /api/chat fails, every chat with the active
    id keeps the user's message and gets the apology after it; the other
    chats, the ids and titles, the active chat and the sampling status are
    untouched; the input box stays empty and the busy flag is off. *)
Theorem sendMessage_failure (t t2 : Stamp) (s : Session) (out : FetchOutcome ChatData) :
  forallb BuildForm.is_white_space (code_units (input s)) = false ->
  isLoading s = false ->
  chat_failed out ->
  let s' := finish s (sendMessage t s) out t2 in
  Forall2 (fun c c' =>
             if bool_decide (Some (chat_id c) = activeChat s) then
               chat_id c' = chat_id c /\ chat_title c' = chat_title c
               /\ exists sorry,
                    chat_messages c' = (chat_messages c ++ [userMessage t s; sorry])%list
                    /\ msg_role sorry = assistant
                    /\ msg_content sorry = "Sorry, I encountered an error. Please try again."
             else c' = c)
          (chats (view s)) (chats (view s'))
  /\ activeChat s' = activeChat s
  /\ samplingStatus (view s') = samplingStatus (view s)
  /\ input s' = ""
  /\ isLoading s' = false.
Proof.
  intros Hb Hl Hfail s'. rewrite <- blank_spec in Hb. split; [|split].
  - unfold s'. rewrite sendMessage_chats_failed by assumption.
    eapply Forall2_impl; [apply in_chat_Forall2|].
    intros c c' ->. simpl. case_bool_decide; [|reflexivity].
    split; [reflexivity|]. split; [reflexivity|].
    exists (sorry_message t2 (apology_counter s out)). simpl.
    split; [now rewrite <- app_assoc | split; reflexivity].
  - unfold s'. rewrite sendMessage_active by assumption.
    destruct out as [msg|code [msg|data]|code msg]; try reflexivity.
    simpl in Hfail. now rewrite Hfail.
  - unfold s', sendMessage, finish. rewrite Hb, Hl. simpl.
    destruct out as [msg|code [msg|data]|code msg]; simpl;
      try (repeat split; reflexivity).
    + destruct (ok_status code); repeat split; reflexivity.
    + simpl in Hfail. rewrite Hfail. repeat split; reflexivity.
    + destruct (ok_status code); repeat split; reflexivity.
Qed.

Lemma sendMessage_failure_witness :
  let s' := finish two_chats (sendMessage Samples.st0 two_chats)
              (NetworkError "Failed to fetch") Samples.st0 in
  forallb BuildForm.is_white_space (code_units (input two_chats)) = false
  /\ isLoading two_chats = false
  /\ chat_failed (NetworkError "Failed to fetch")
  /\ activeChat s' = activeChat two_chats.
Proof.
  intros s'. split; [reflexivity|]. split; [reflexivity|]. split; [exact I|].
  apply (sendMessage_failure Samples.st0 Samples.st0 two_chats
           (NetworkError "Failed to fetch") eq_refl eq_refl I).
Defined.

(** *** [executePlan] *)

(** The text in front of the request id in the start message does not
    contain the completion marker, nor the beginning of one. *)
Lemma started_text_unmarked (rid : string) :
  includes completion_marker ("ðŸš€ Started dataset sampling! Request ID: " +:+ rid)
  = includes completion_marker rid.
Proof. unfold completion_marker. reflexivity. Qed.

Lemma started_message_unmarked (requestId rid : string) (t : Stamp) (counter : Z) :
  includes completion_marker rid = false ->
  is_completion_msg requestId (started_message t counter (Val rid)) = false.
Proof.
  intros H. unfold is_completion_msg, started_message.
  cbn [msg_content msg_request_id interpolate_str].
  now rewrite started_text_unmarked, H.
Qed.

(** The request id of an answer that makes [executePlan] start a poller:
    an ok answer whose body parses and has a non-empty [request_id]. *)
Definition accepted_request_id (out : FetchOutcome PlanResult) : option string :=
  match out with
  | Responded code (Json result) =>
      if ok_status code && truthy_str (result_request_id result)
      then to_option (result_request_id result) else None
  | _ => None
  end.

(** The message [executePlan] adds for an outcome. *)
Definition plan_message (out : FetchOutcome PlanResult) (t : Stamp) (counter : Z) : Message :=
  match out with
  | Responded code (Json result) =>
      if ok_status code then started_message t counter (result_request_id result)
      else failed_message t counter
  | _ => failed_message t counter
  end.

Lemma executePlan_finish (cb : bool) (plan : DatasetPlan) (s : Session)
    (out : FetchOutcome PlanResult) (t : Stamp) :
  let s' := finish s (executePlan cb plan s) out t in
  chats (view s')
  = in_chat (activeChat s) (append_message (plan_message out t (messageIdCounter s)))
      (chats (view s))
  /\ samplingStatus (view s')
     = match accepted_request_id out with
       | Some rid => <[rid := initial_status rid plan]> (samplingStatus (view s))
       | None => samplingStatus (view s)
       end
  /\ pollers s'
     = (pollers s ++ match accepted_request_id out with
                     | Some rid => [(rid, default "" (activeChat s))]
                     | None => []
                     end)%list
  /\ executingPlan s' = false
  /\ activeChat s' = activeChat s.
Proof.
  unfold executePlan, finish, accepted_request_id, plan_message.
  destruct out as [msg|code [msg|result]|code msg]; simpl.
  - rewrite app_nil_r. repeat split.
  - destruct (ok_status code); simpl; rewrite app_nil_r; repeat split.
  - destruct (ok_status code); simpl; [|rewrite app_nil_r; repeat split].
    destruct (result_request_id result) as [| |rid]; simpl;
      try (destruct cb; simpl; rewrite app_nil_r; repeat split).
    destruct (bool_decide (rid = "")); simpl; destruct cb; simpl;
      rewrite ?app_nil_r; repeat split.
  - rewrite app_nil_r. repeat split.
Qed.

(** X7. [executePlan] starts a poller exactly when the answer of
    /api/plan-and-sample is ok, parses and carries a non-empty request id:
    then one poller is started for that id and the chat that was active
    when the plan was executed (the empty id if none was), and the sampling
    status of that id is set to running, 0 of the plan's total. In every
    other outcome no poller is started and the sampling status is
    untouched. In every outcome each chat with the active id gets exactly
    one assistant message, the busy flag is off again and the active chat
    is unchanged. *)
Theorem executePlan_starts_poller (cb : bool) (plan : DatasetPlan) (s : Session)
    (out : FetchOutcome PlanResult) (t : Stamp) :
  let s' := finish s (executePlan cb plan s) out t in
  match accepted_request_id out with
  | Some rid =>
      rid <> ""
      /\ pollers s' = (pollers s ++ [(rid, default "" (activeChat s))])%list
      /\ samplingStatus (view s') !! rid
         = Some {| request_id := rid; status := "running"; progress := 0;
                   total := plan_total_items plan; samples := Undefined |}
      /\ forall other, other <> rid ->
           samplingStatus (view s') !! other = samplingStatus (view s) !! other
  | None =>
      pollers s' = pollers s /\ samplingStatus (view s') = samplingStatus (view s)
  end
  /\ Forall2 (fun c c' =>
                if bool_decide (Some (chat_id c) = activeChat s) then
                  exists m, c' = append_message m c /\ msg_role m = assistant
                else c' = c)
             (chats (view s)) (chats (view s'))
  /\ executingPlan s' = false
  /\ activeChat s' = activeChat s.
Proof.
  intros s'.
  destruct (executePlan_finish cb plan s out t) as (Hchats & Hstatus & Hpollers & Hbusy & Hact).
  fold s' in Hchats, Hstatus, Hpollers, Hbusy, Hact.
  split; [|split; [|split; assumption]].
  - rewrite Hstatus, Hpollers.
    destruct (accepted_request_id out) as [rid|] eqn:Hacc.
    + split; [|split; [reflexivity|split]].
      * unfold accepted_request_id in Hacc.
        destruct out as [msg|code [msg|result]|code msg]; try discriminate.
        destruct (ok_status code); try discriminate.
        destruct (result_request_id result) as [| |r]; try discriminate.
        simpl in Hacc. case_bool_decide; [discriminate|]. simpl in Hacc. congruence.
      * apply lookup_insert_eq.
      * intros other Hother. now apply lookup_insert_ne.
    + rewrite app_nil_r. split; reflexivity.
  - rewrite Hchats. eapply Forall2_impl; [apply in_chat_Forall2|].
    intros c c' ->. case_bool_decide; [|reflexivity].
    eexists. split; [reflexivity|].
    unfold plan_message. destruct out as [msg|code [msg|result]|code msg]; try reflexivity.
    destruct (ok_status code); reflexivity.
Qed.

Lemma Forall2_map_self {A} (R : A -> A -> Prop) (f : A -> A) (l : list A) :
  (forall x, R x (f x)) -> Forall2 R l (map f l).
Proof. intros H. induction l; simpl; constructor; auto. Qed.

Lemma completion_after_start (rid : string) (m : Message) (c : Chat) :
  is_completion_msg rid m = false ->
  hasCompletionMsg rid c = false ->
  hasCompletionMsg rid (append_message m c) = false.
Proof.
  intros Hm Hc. unfold hasCompletionMsg, append_message, with_messages.
  cbn [chat_messages]. rewrite existsb_app. fold (hasCompletionMsg rid c).
  rewrite Hc. cbn [existsb orb]. now rewrite Hm.
Qed.

(** X8. The start message of [executePlan] does not stand in the way of
    the completion message. Take a request id that does not itself contain
    "Dataset sampling completed", an active chat, and an ok answer that
    carries the id. If the poller that [executePlan] started then observes
    a terminal state on its first check, every chat with the active id
    that had no completion message for this request now ends with the
    start message followed by the completion message; chats with another
    id are as they were. *)
Theorem executePlan_then_completion (cb : bool) (plan : DatasetPlan) (s : Session)
    (code : Z) (rid a : string) (t st : Stamp) (data : ProgressData) :
  ok_status code = true ->
  rid <> "" ->
  includes completion_marker rid = false ->
  activeChat s = Some a ->
  stop_condition data = true ->
  let out := Responded code (Json {| result_request_id := Val rid |}) in
  let s' := finish s (executePlan cb plan s) out t in
  let w := run rid a (pollSamplingStatus (view s')) (PollerFacts.iteration data st) in
  pollers s' = (pollers s ++ [(rid, a)])%list
  /\ Forall2 (fun c c' =>
                if bool_decide (chat_id c = a) then
                  hasCompletionMsg rid c = false ->
                  chat_messages c'
                  = (chat_messages c
                     ++ [started_message t (messageIdCounter s) (Val rid);
                         completionMessage rid data st])%list
                else c' = c)
             (chats (view s)) (chats (ui w)).
Proof.
  intros Hok Hrid Hclean Ha Hstop out s' w.
  destruct (executePlan_finish cb plan s out t) as (Hchats & _ & Hpollers & _).
  fold s' in Hchats, Hpollers.
  assert (Hacc : accepted_request_id out = Some rid).
  { unfold out, accepted_request_id. rewrite Hok. simpl.
    now rewrite bool_decide_eq_false_2. }
  rewrite Hacc, Ha in Hpollers. split; [exact Hpollers|].
  assert (Hmsg : plan_message out t (messageIdCounter s)
                 = started_message t (messageIdCounter s) (Val rid)).
  { unfold plan_message, out. now rewrite Hok. }
  assert (Hw : chats (ui w)
               = add_completion rid a (completionMessage rid data st) (chats (view s'))).
  { unfold w, PollerFacts.iteration.
    change (run rid a (pollSamplingStatus (view s'))
              [IntervalFires; FetchSettles (Responded 200 (Json data)) st])
      with (step rid a (step rid a (pollSamplingStatus (view s')) IntervalFires)
              (FetchSettles (Responded 200 (Json data)) st)).
    rewrite PollerFacts.ui_step. simpl. unfold PollerFacts.ui_after. simpl.
    now rewrite Hstop. }
  rewrite Hw, Hchats, Ha, Hmsg. unfold add_completion, in_chat. rewrite map_map.
  apply Forall2_map_self. intros c.
  destruct (decide (chat_id c = a)) as [Hc|Hc].
  - rewrite (bool_decide_eq_true_2 (chat_id c = a)) by exact Hc.
    rewrite (bool_decide_eq_true_2 (Some (chat_id c) = Some a)) by congruence.
    intros Hnone.
    change (chat_id (append_message (started_message t (messageIdCounter s) (Val rid)) c))
      with (chat_id c).
    rewrite (bool_decide_eq_true_2 (chat_id c = a)) by exact Hc.
    rewrite completion_after_start; auto using started_message_unmarked.
    cbn [chat_messages append_message with_messages]. now rewrite <- app_assoc.
  - rewrite (bool_decide_eq_false_2 (chat_id c = a)) by exact Hc.
    rewrite (bool_decide_eq_false_2 (Some (chat_id c) = Some a)) by congruence.
    now rewrite (bool_decide_eq_false_2 (chat_id c = a)) by exact Hc.
Qed.

Definition cats_plan : DatasetPlan :=
  {| plan_action := "create_dataset"; plan_query := "cats"; plan_classes := ["cat"];
     plan_total_items := 10; plan_data_type := "images" |}.

Definition accepted_r1 : FetchOutcome PlanResult :=
  Responded 200 (Json {| result_request_id := Val "r1" |}).

Lemma executePlan_starts_poller_witness :
  pollers (finish two_chats (executePlan false cats_plan two_chats) accepted_r1 Samples.st0)
  = [("r1", "a")]
  /\ pollers (finish two_chats (executePlan false cats_plan two_chats)
                (Responded 500 (Json {| result_request_id := Val "r1" |})) Samples.st0)
     = [].
Proof.
  split.
  - apply (executePlan_starts_poller false cats_plan two_chats accepted_r1 Samples.st0).
  - apply (executePlan_starts_poller false cats_plan two_chats
             (Responded 500 (Json {| result_request_id := Val "r1" |})) Samples.st0).
Defined.

Lemma executePlan_then_completion_witness :
  ok_status 200 = true
  /\ "r1" <> ""
  /\ includes completion_marker "r1" = false
  /\ activeChat two_chats = Some "a"
  /\ stop_condition Samples.d_completed = true
  /\ pollers (finish two_chats (executePlan false cats_plan two_chats) accepted_r1
                Samples.st0)
     = [("r1", "a")].
Proof.
  assert (Hrid : "r1" <> "") by discriminate.
  split; [reflexivity|]. split; [exact Hrid|]. split; [reflexivity|].
  split; [reflexivity|]. split; [reflexivity|].
  apply (executePlan_then_completion false cats_plan two_chats 200 "r1" "a"
           Samples.st0 Samples.st0 Samples.d_completed eq_refl Hrid eq_refl eq_refl eq_refl).
Defined.

End ChatActionsFacts.

(** ** Facts about the build form after the request *)

Module BuildFormAfter.

Import BuildForm.

(** The body of an outcome with an ok status and a body that parses,
    [None] standing for the body [null]. *)
Definition planned (out : FetchOutcome PlanData) : option (option PlanData) :=
  match out with
  | Responded code (Json data) => if ok_status code then Some (Some data) else None
  | RespondedNull code _ => if ok_status code then Some None else None
  | _ => None
  end.

(** X9. Once the request of the build form has settled, whatever the
    outcome: the busy flag is off, and the query, the total and the data
    type are what they were. [onPlanAndSample] is called exactly when the
    answer is ok and its body parses, once, with that body, even if the
    body is [null] or lacks the plan or the samples and the status line
    then reports an error. *)
Theorem planAndSample_settled (type_error_message : string) (s : FormState)
    (out : FetchOutcome PlanData) :
  forallb is_white_space (query s) = false ->
  exists continue,
    planAndSample type_error_message s = Await (plan_request s) continue
    /\ loading (fst (continue out)) = false
    /\ query (fst (continue out)) = query s
    /\ total (fst (continue out)) = total s
    /\ type (fst (continue out)) = type s
    /\ snd (continue out) = match planned out with Some data => [data] | None => [] end.
Proof.
  intros Hq. unfold planAndSample. rewrite BuildFormFacts.blank_iff_trim_empty, Hq.
  eexists. split; [reflexivity|]. unfold planned.
  destruct out as [msg|code [msg|data]|code msg]; simpl;
    try (repeat split; reflexivity).
  - destruct (ok_status code); simpl; [|repeat split; reflexivity].
    destruct (resp_plan_classes data), (resp_samples data); repeat split; reflexivity.
  - destruct (ok_status code); repeat split; reflexivity.
Qed.

Lemma planAndSample_settled_witness :
  forallb is_white_space (query BuildFormFacts.cats_zero) = false
  /\ exists continue,
       planAndSample "" BuildFormFacts.cats_zero
       = Await (plan_request BuildFormFacts.cats_zero) continue
       /\ loading (fst (continue (NetworkError "Failed to fetch"))) = false.
Proof.
  split; [reflexivity|].
  destruct (planAndSample_settled "" BuildFormFacts.cats_zero
              (NetworkError "Failed to fetch") eq_refl) as (k & Hk & Hl & _).
  exists k. split; [exact Hk | exact Hl].
Defined.

End BuildFormAfter.

(** ** Facts about the proxy routes *)

Module ProxyFacts.

Import Routes Siblings.

(** What a route passes on of an ok answer of the backend whose body
    parses: the body, or the [null] that it was. *)
Definition forwarded {D} (out : FetchOutcome D) : option (ProxyPayload D) :=
  match out with
  | Responded code (Json data) => if ok_status code then Some (Forwarded data) else None
  | RespondedNull code _ => if ok_status code then Some ForwardedNull else None
  | _ => None
  end.

(** The status of an answer of the backend, if there was one. *)
Definition status_of {D} (out : FetchOutcome D) : option Z :=
  match out with
  | NetworkError _ => None
  | Responded code _ | RespondedNull code _ => Some code
  end.

Lemma json_or_catch_not_ok {P} (code : Z) (p : P) (fallback : NextResponse P) :
  ok_status code = false -> ok_status (status fallback) = false ->
  ok_status (status (json_or_catch code p fallback)) = false.
Proof. intros Hc Hf. unfold json_or_catch. now destruct (accepts_status code). Qed.

Lemma relay_forwarded {D} (failure : string) (out : FetchOutcome D) :
  match forwarded out with
  | Some p => relay failure out = {| status := 200; payload := p |}
  | None =>
      ok_status (status (relay failure out)) = false
      /\ (payload (relay failure out) = ErrorJson failure
          \/ payload (relay failure out) = ErrorJson "Failed to connect to backend")
  end.
Proof.
  unfold forwarded, relay. destruct out as [msg|code [msg|data]|code msg]; simpl.
  - split; [reflexivity | now right].
  - destruct (ok_status code) eqn:Hok; simpl; [split; [reflexivity | now right]|].
    unfold json_or_catch. destruct (accepts_status code); simpl; auto.
  - destruct (ok_status code) eqn:Hok; simpl; [reflexivity|].
    unfold json_or_catch. destruct (accepts_status code); simpl; auto.
  - destruct (ok_status code) eqn:Hok; simpl; [reflexivity|].
    unfold json_or_catch. destruct (accepts_status code); simpl; auto.
Qed.

Lemma relay_failing_status {D} (failure : string) (out : FetchOutcome D) (code : Z) :
  status_of out = Some code -> ok_status code = false -> accepts_status code = true ->
  relay failure out = {| status := code; payload := ErrorJson failure |}.
Proof.
  intros Hout Hno Hacc. unfold relay, json_or_catch.
  destruct out as [msg|code' body|code' msg]; simpl in Hout; [discriminate| |];
    injection Hout as ->; now rewrite Hno, Hacc.
Qed.

(** X10. With a non-empty [request_id], the download-progress route
    sends one GET to the backend, with the id put into the URL as it was
    given. It answers 200 with the backend's body exactly when the backend
    answered with an ok status and a body that parses, a body [null]
    being passed on as [null]; in every other case its status is not ok
    and its payload is an error text, so it never reports success without
    the backend's data. A failing status of the backend is passed on when
    a response can carry it, whatever the body was. *)
Theorem progress_route_outcome {D : Type} (params : list (string * string)) (rid : string)
    (out : FetchOutcome D) :
  searchParams_get "request_id" params = Some rid ->
  rid <> "" ->
  exists continue,
    GET_download_progress params = Await (progress_upstream rid) continue
    /\ req_url (progress_upstream rid)
       = "http://localhost:8000/api/download-progress?request_id=" +:+ rid
    /\ match forwarded out with
       | Some p => continue out = {| status := 200; payload := p |}
       | None =>
           ok_status (status (continue out)) = false
           /\ exists text, payload (continue out) = ErrorJson text
       end
    /\ (forall code,
          status_of out = Some code -> ok_status code = false ->
          accepts_status code = true ->
          continue out
          = {| status := code; payload := ErrorJson "Failed to fetch download progress" |}).
Proof.
  intros Hget Hrid. unfold GET_download_progress. rewrite Hget. simpl.
  rewrite bool_decide_eq_false_2 by exact Hrid.
  exists (relay "Failed to fetch download progress").
  split; [reflexivity|]. split; [reflexivity|]. split.
  - pose proof (relay_forwarded "Failed to fetch download progress" out) as H.
    destruct (forwarded out); [exact H|]. destruct H as [Hs [Hp|Hp]]; eauto.
  - intros code. apply relay_failing_status.
Qed.

Lemma progress_route_outcome_witness :
  searchParams_get "request_id" [("request_id", "r1")] = Some "r1"
  /\ "r1" <> ""
  /\ exists continue,
       GET_download_progress (D := ChatInterface.ProgressData) [("request_id", "r1")]
       = Await (progress_upstream "r1") continue
       /\ ok_status (status (continue (NetworkError "ECONNREFUSED"))) = false.
Proof.
  assert (Hrid : "r1" <> "") by discriminate.
  split; [reflexivity|]. split; [exact Hrid|].
  destruct (progress_route_outcome (D := ChatInterface.ProgressData)
              [("request_id", "r1")] "r1" (NetworkError "ECONNREFUSED") eq_refl Hrid)
    as (k & Hk & _ & Hout & _).
  exists k. split; [exact Hk|]. apply Hout.
Defined.

(** The read-only sibling routes, for a path parameter [id]. *)
Definition sibling_routes {D} (id : string)
    : list (Handler Empty_set D (NextResponse (ProxyPayload D))) :=
  [GET_chats; GET_chat id; DELETE_chat id; GET_runs; GET_run id; GET_preview id].

(** X11. The routes for the chat list, one chat, deleting a chat, the
    run list, one run and a dataset preview, in this order. Each sends
    exactly one request to the backend, without body or headers: the
    delete route a DELETE to /api/chats/<id> with no cache option, each
    other route a GET with cache "no-store" to /api/chats,
    /api/chats/<id>, /api/runs, /api/runs/<id> and
    /api/datasets/<id>/preview. Each answers 200 with the backend's body
    ([null] passed on as [null]) exactly when the backend answered ok
    with a body that parses; otherwise its status is not ok and its
    payload is an error text, the route's own text with the backend's
    status when the backend answered with a failing status that a
    response can carry. *)
Theorem sibling_routes_outcome {D : Type} (id : string) (out : FetchOutcome D) :
  Forall2 (fun route '(method, url, cache, failure) =>
             exists continue,
               route = Await {| req_method := method; req_url := url; req_headers := [];
                                req_cache := cache; req_body := None |} continue
               /\ match forwarded out with
                  | Some p => continue out = {| status := 200; payload := p |}
                  | None =>
                      ok_status (status (continue out)) = false
                      /\ exists text, payload (continue out) = ErrorJson text
                  end
               /\ (forall code,
                     status_of out = Some code -> ok_status code = false ->
                     accepts_status code = true ->
                     continue out = {| status := code; payload := ErrorJson failure |}))
          (sibling_routes (D := D) id)
          [(GET, "http://localhost:8000/api/chats", Some "no-store", "Failed to fetch chats");
           (GET, "http://localhost:8000/api/chats/" +:+ id, Some "no-store",
            "Failed to fetch chat");
           (DELETE, "http://localhost:8000/api/chats/" +:+ id, None, "Failed to delete chat");
           (GET, "http://localhost:8000/api/runs", Some "no-store", "Failed to fetch runs");
           (GET, "http://localhost:8000/api/runs/" +:+ id, Some "no-store",
            "Failed to fetch run details");
           (GET, "http://localhost:8000/api/datasets/" +:+ id +:+ "/preview", Some "no-store",
            "Failed to fetch preview")].
Proof.
  assert (Hrelay : forall failure,
            match forwarded out with
            | Some p => relay failure out = {| status := 200; payload := p |}
            | None =>
                ok_status (status (relay failure out)) = false
                /\ exists text, payload (relay failure out) = ErrorJson text
            end).
  { intros failure. pose proof (relay_forwarded failure out) as H.
    destruct (forwarded out); [exact H|]. destruct H as [Hs [Hp|Hp]]; eauto. }
  unfold sibling_routes.
  repeat (apply Forall2_cons; split;
          [eexists; split; [reflexivity|]; split;
           [apply Hrelay | intros code; apply relay_failing_status]|]).
  apply Forall2_nil_2.
Qed.

Section StartFullRun.

Context {B : Type}.
Variables (FASTAPI_URL : option string) (response_error_message : Z -> string).

#[local] Abbreviation route := (POST_start_full_run (B := B) FASTAPI_URL response_error_message).

(** X12. The start-full-run route. If the body of the incoming request
    does not parse it answers 500 and sends nothing. Otherwise it sends
    one POST with the body unchanged to /api/start-full-run of the backend,
    whose base is the FASTAPI_URL setting, or http://localhost:8000 when
    that is unset or empty. Every ok answer of the backend whose body
    parses, whatever its status, is answered with 200 and the backend's
    body ([null] passed on as [null]). Every other answer gets a status
    that is not ok and a [detail]. A refusal of the backend (a failing
    status with a body that parses to something other than [null]) is
    answered with that status, when a response can carry it, and a detail
    that is never falsy: the backend's detail of whatever type, or
    "FastAPI error" when that is missing, [null], empty, zero or false. A
    failing answer whose body is [null] is answered with 500 and the text
    of the TypeError as detail, and so is, with its own message, a thrown
    fetch, a body that does not parse, and a status that a response
    cannot carry. *)
Theorem full_run_route_outcome (b : B) (out : FetchOutcome StartRunData) :
  (forall message, route (SyntaxError message)
                   = Return {| status := 500; payload := DetailJson message |})
  /\ exists continue,
       route (Json b) = Await (full_run_upstream FASTAPI_URL b) continue
       /\ req_body (full_run_upstream FASTAPI_URL b) = Some b
       /\ req_method (full_run_upstream FASTAPI_URL b) = POST
       /\ req_url (full_run_upstream FASTAPI_URL b)
          = match FASTAPI_URL with
            | Some base => if bool_decide (base = "") then "http://localhost:8000" else base
            | None => "http://localhost:8000"
            end +:+ "/api/start-full-run"
       /\ match forwarded out with
          | Some p => continue out = {| status := 200; payload := p |}
          | None =>
              ok_status (status (continue out)) = false
              /\ match out with
                 | NetworkError message | Responded _ (SyntaxError message) =>
                     continue out = {| status := 500; payload := DetailJson message |}
                 | Responded code (Json data) =>
                     let detail := value_or (run_detail data) "FastAPI error" in
                     truthy detail = true
                     /\ (forall v, run_detail data = Val v -> truthy v = true -> detail = v)
                     /\ continue out
                        = if accepts_status code
                          then {| status := code; payload := detail_json detail |}
                          else {| status := 500;
                                  payload := DetailJson (response_error_message code) |}
                 | RespondedNull _ message =>
                     continue out = {| status := 500; payload := DetailJson message |}
                 end
          end.
Proof.
  split; [reflexivity|]. eexists. split; [reflexivity|].
  split; [reflexivity|]. split; [reflexivity|]. split.
  - unfold full_run_upstream, fastapi_base. simpl.
    destruct FASTAPI_URL as [base|]; simpl; [|reflexivity].
    now destruct (bool_decide (base = "")).
  - unfold forwarded. destruct out as [msg|code [msg|data]|code msg]; simpl.
    + split; reflexivity.
    + split; reflexivity.
    + destruct (ok_status code) eqn:Hok; simpl; [reflexivity|]. split; [|split; [|split]].
      * apply json_or_catch_not_ok; [exact Hok | reflexivity].
      * unfold value_or. destruct (run_detail data) as [| |v]; try reflexivity.
        destruct (truthy v) eqn:Hv; [exact Hv | reflexivity].
      * intros v -> Hv. unfold value_or. now rewrite Hv.
      * reflexivity.
    + destruct (ok_status code) eqn:Hok; simpl; [reflexivity|]. split; reflexivity.
Qed.

End StartFullRun.

Section Chat.

Context {B D : Type}.
Variable detail_of : D -> field jsvalue.

(** X13. The chat route. If the body of the incoming request does not
    parse it answers 500 and sends nothing; otherwise it sends one POST
    with the body unchanged to the backend. An ok answer whose body
    parses is answered with 200 and the backend's body ([null] passed on
    as [null]). Every other answer gets a status that is not ok and an
    error. A failing answer whose body parses to something other than
    [null] is answered with that status, when a response can carry it,
    and an error that is never falsy: the backend's detail of whatever
    type, or "Failed to process chat". Everything else, a failing answer
    whose body is [null] included, is answered with 500 and "Failed to
    connect to backend". *)
Theorem chat_route_outcome (b : B) (out : FetchOutcome D) :
  (forall message,
     POST_chat (B := B) detail_of (SyntaxError message) = Return connect_failed)
  /\ exists continue,
       POST_chat detail_of (Json b) = Await (chat_upstream b) continue
       /\ req_body (chat_upstream b) = Some b
       /\ req_method (chat_upstream b) = POST
       /\ req_url (chat_upstream b) = "http://localhost:8000/api/chat"
       /\ match forwarded out with
          | Some p => continue out = {| status := 200; payload := p |}
          | None =>
              ok_status (status (continue out)) = false
              /\ match out with
                 | Responded code (Json data) =>
                     let detail := value_or (detail_of data) "Failed to process chat" in
                     truthy detail = true
                     /\ (forall v, detail_of data = Val v -> truthy v = true -> detail = v)
                     /\ continue out
                        = if accepts_status code
                          then {| status := code; payload := error_json detail |}
                          else {| status := 500;
                                  payload := ErrorJson "Failed to connect to backend" |}
                 | _ =>
                     continue out
                     = {| status := 500; payload := ErrorJson "Failed to connect to backend" |}
                 end
          end.
Proof.
  split; [reflexivity|]. eexists. split; [reflexivity|]. split; [reflexivity|].
  split; [reflexivity|]. split; [reflexivity|].
  unfold forwarded. destruct out as [msg|code [msg|data]|code msg]; simpl.
  - split; reflexivity.
  - split; reflexivity.
  - destruct (ok_status code) eqn:Hok; simpl; [reflexivity|]. split; [|split; [|split]].
    + apply json_or_catch_not_ok; [exact Hok | reflexivity].
    + unfold value_or. destruct (detail_of data) as [| |v]; try reflexivity.
      destruct (truthy v) eqn:Hv; [exact Hv | reflexivity].
    + intros v -> Hv. unfold value_or. now rewrite Hv.
    + reflexivity.
  - destruct (ok_status code) eqn:Hok; simpl; [reflexivity|]. split; reflexivity.
Qed.

End Chat.

(** A validation error of FastAPI: status 422 and a list as detail. *)
Definition validation_error : FetchOutcome StartRunData :=
  Responded 422
    (Json {| run_detail := Val (Truthy "[422]");
             run_dagster_run_id := Undefined;
             run_request_id := Undefined |}).

Lemma full_run_route_outcome_witness :
  exists continue,
    POST_start_full_run (Some "") (fun _ => "RangeError") (Json CoordinatorFacts.full_run_body)
    = Await (full_run_upstream (Some "") CoordinatorFacts.full_run_body) continue
    /\ req_url (full_run_upstream (Some "") CoordinatorFacts.full_run_body)
       = "http://localhost:8000/api/start-full-run"
    /\ continue (RespondedNull 500 "Cannot read properties of null (reading 'detail')")
       = {| status := 500;
            payload := DetailJson "Cannot read properties of null (reading 'detail')" |}
    /\ continue (RespondedNull 200 "Cannot read properties of null (reading 'detail')")
       = {| status := 200; payload := ForwardedNull |}
    /\ status (continue validation_error) = 422.
Proof.
  destruct (full_run_route_outcome (Some "") (fun _ => "RangeError")
              CoordinatorFacts.full_run_body (NetworkError "ECONNREFUSED"))
    as (_ & k & Hk & _ & _ & Hurl & _).
  exists k. split; [exact Hk|]. split; [exact Hurl|].
  injection Hk as <-. repeat split.
Defined.

Lemma chat_route_outcome_witness :
  exists continue,
    POST_chat (B := ChatActions.ChatBody) (D := ChatActions.ChatData)
      (fun _ => Undefined) (Json {| ChatActions.cb_message := "hello";
                                    ChatActions.cb_chat_id := None |})
    = Await (chat_upstream {| ChatActions.cb_message := "hello";
                              ChatActions.cb_chat_id := None |}) continue
    /\ ok_status (status (continue (NetworkError "ECONNREFUSED"))) = false.
Proof.
  destruct (chat_route_outcome (B := ChatActions.ChatBody) (D := ChatActions.ChatData)
              (fun _ => Undefined)
              {| ChatActions.cb_message := "hello"; ChatActions.cb_chat_id := None |}
              (NetworkError "ECONNREFUSED"))
    as (_ & k & Hk & _ & _ & _ & Hout).
  exists k. split; [exact Hk|]. apply Hout.
Defined.

End ProxyFacts.

(** ** The full-download button, alone and through its route *)

Module FullDownloadFacts.

Import Routes FullDownload.

(** X14. The button does nothing but show "No request ID found. Please
    plan first." when its request id is null or empty: no request is sent
    and the busy flag is not touched. With a request id it posts exactly
    one request to /api/start-full-run whose body carries that id and
    [persist] true, and once the fetch has settled, whatever the outcome,
    the busy flag is off. *)
Theorem startFullRun_guard (requestId : option string) (s : State) :
  (requestId = None \/ requestId = Some "" ->
   startFullRun requestId s = Return (setStatus "No request ID found. Please plan first." s))
  /\ (forall rid, requestId = Some rid -> rid <> "" ->
      exists continue,
        startFullRun requestId s = Await (run_request rid) continue
        /\ req_body (run_request rid)
           = Some {| body_request_id := rid; body_persist := true |}
        /\ forall out, loading (continue out) = false).
Proof.
  split.
  - intros [-> | ->]; reflexivity.
  - intros rid -> Hrid. unfold startFullRun. simpl.
    rewrite bool_decide_eq_false_2 by exact Hrid.
    eexists. split; [reflexivity|]. split; [reflexivity|]. intros out. reflexivity.
Qed.

Lemma startFullRun_guard_witness :
  ((None : option string) = None \/ None = Some "")
  /\ Some "r1" = Some "r1"
  /\ "r1" <> ""
  /\ sent (startFullRun None initial) = []
  /\ sent (startFullRun (Some "r1") initial) = [run_request "r1"].
Proof.
  assert (Hrid : "r1" <> "") by discriminate.
  split; [now left|]. split; [reflexivity|]. split; [exact Hrid|].
  destruct (startFullRun_guard None initial) as [Hnone _].
  destruct (startFullRun_guard (Some "r1") initial) as [_ Hsome].
  destruct (Hsome "r1" eq_refl Hrid) as (k & Hk & _).
  split; [now rewrite (Hnone (or_introl eq_refl)) | now rewrite Hk].
Defined.

Section ThroughRoute.

Variables (FASTAPI_URL : option string) (response_error_message : Z -> string).

(** Text of the TypeError the browser raises for a property read on
    [null]. *)
Variable type_error : string.

(** A click on the button with request id [rid], served by the
    start-full-run route, whose own request the backend answers with
    [out]: the state of the button at the end. *)
Definition click_through (rid : string) (s : State) (out : FetchOutcome StartRunData) : State :=
  match startFullRun (Some rid) s with
  | Return s' => s'
  | Await request continue =>
      match req_body request with
      | Some b =>
          continue
            (Wire.received type_error Wire.run_body
               match POST_start_full_run FASTAPI_URL response_error_message (Json b) with
               | Return r => r
               | Await _ respond => respond out
               end)
      | None => s
      end
  end.

Lemma run_body_detail (v : jsvalue) :
  Wire.run_body (detail_json v)
  = Some {| run_detail := Val v; run_dagster_run_id := Undefined;
            run_request_id := Undefined |}.
Proof. destruct v; reflexivity. Qed.

(** X15. What the user reads after a click that went through the route.
    If the backend accepted with a body that is not [null], the line names
    the run id of the answer. If the backend refused with a status a
    response can carry and a body that is not [null], the line is the
    backend's detail as it is, a string word for word or a value that is
    not a string, or "FastAPI error" when the backend gave none or a
    falsy one; the button's own "Failed to start full run." is not shown
    then. If the backend could not be reached, answered with a body that
    does not parse, or refused with the body [null], the line is the
    error message of the route, or "Failed to start full run." when that
    message is empty. If the backend accepted with the body [null], the
    line is "Error: " followed by the browser's TypeError text. In each
    case the busy flag is off. *)
Theorem click_through_status (rid : string) (s : State) (out : FetchOutcome StartRunData) :
  rid <> "" ->
  loading (click_through rid s out) = false
  /\ status (click_through rid s out)
     = match out with
       | NetworkError message | Responded _ (SyntaxError message) =>
           if bool_decide (message = "") then Text "Failed to start full run."
           else Text message
       | Responded code (Json data) =>
           if ok_status code then
             Text ("Full run submitted. Run ID: "
                   +:+ ChatActions.interpolate_str (run_dagster_run_id data))
           else if accepts_status code then
             match run_detail data with
             | Val v => if truthy v then v else Text "FastAPI error"
             | _ => Text "FastAPI error"
             end
           else if bool_decide (response_error_message code = "")
                then Text "Failed to start full run."
                else Text (response_error_message code)
       | RespondedNull code message =>
           if ok_status code then Text ("Error: " +:+ type_error)
           else if bool_decide (message = "") then Text "Failed to start full run."
                else Text message
       end.
Proof.
  intros Hrid. unfold click_through, startFullRun. simpl.
  rewrite bool_decide_eq_false_2 by exact Hrid. simpl.
  destruct out as [msg|code [msg|data]|code msg]; simpl.
  - split; [reflexivity|]. unfold Wire.received; simpl. now destruct (bool_decide (msg = "")).
  - split; [reflexivity|]. unfold Wire.received; simpl. now destruct (bool_decide (msg = "")).
  - destruct (ok_status code) eqn:Hok; simpl.
    + unfold Wire.received; simpl. split; reflexivity.
    + unfold json_or_catch. destruct (accepts_status code) eqn:Hacc; simpl.
      * unfold Wire.received. cbn [payload status]. rewrite run_body_detail.
        cbn [Routes.status]. rewrite Hok. simpl. split; [reflexivity|].
        unfold value_or. destruct (run_detail data) as [| |v]; try reflexivity.
        destruct (truthy v) eqn:Hv; [now rewrite Hv | reflexivity].
      * unfold Wire.received; simpl. split; [reflexivity|].
        now destruct (bool_decide (response_error_message code = "")).
  - destruct (ok_status code) eqn:Hok; simpl.
    + unfold Wire.received; simpl. split; reflexivity.
    + unfold Wire.received; simpl. split; [reflexivity|].
      now destruct (bool_decide (msg = "")).
Qed.

End ThroughRoute.

Lemma click_through_status_witness :
  "r1" <> ""
  /\ status (click_through None (fun _ => "RangeError") "null has no properties" "r1" initial
               (Responded 409 (Json {| run_detail := Val (Text "Sample not completed");
                                       run_dagster_run_id := Undefined;
                                       run_request_id := Undefined |})))
     = Text "Sample not completed"
  /\ status (click_through None (fun _ => "RangeError") "null has no properties" "r1" initial
               ProxyFacts.validation_error)
     = Truthy "[422]"
  /\ status (click_through None (fun _ => "RangeError") "null has no properties" "r1" initial
               (RespondedNull 200 "Cannot read properties of null (reading 'detail')"))
     = Text "Error: null has no properties".
Proof.
  assert (Hrid : "r1" <> "") by discriminate. split; [exact Hrid|].
  split; [|split].
  - apply (click_through_status None (fun _ => "RangeError") "null has no properties" "r1"
             initial
             (Responded 409 (Json {| run_detail := Val (Text "Sample not completed");
                                     run_dagster_run_id := Undefined;
                                     run_request_id := Undefined |})) Hrid).
  - apply (click_through_status None (fun _ => "RangeError") "null has no properties" "r1"
             initial ProxyFacts.validation_error Hrid).
  - apply (click_through_status None (fun _ => "RangeError") "null has no properties" "r1"
             initial
             (RespondedNull 200 "Cannot read properties of null (reading 'detail')") Hrid).
Defined.

End FullDownloadFacts.

(** ** The poller over whole runs, and behind its route *)

Module PollerMore.

Import ChatInterface Routes.

Section Frame.

Variables (requestId chatId : string).

#[local] Abbreviation step := (step requestId chatId).
#[local] Abbreviation run := (run requestId chatId).











(** Text of the TypeError the browser raises for a property read on
    [null]. *)
Variable type_error : string.


End Frame.



End PollerMore.

(** ** A new chat and its first message *)

Module NewChatFacts.

Import ChatInterface ChatActions ChatActionsFacts.

(** The session after "New Chat" was clicked at [t0] and [text] typed. *)
Definition typed_in_new_chat (t0 : Stamp) (text : string) (s : Session) : Session :=
  setInput text (createNewChat t0 s).

Lemma new_chat_is_temp (t0 : Stamp) (text : string) (s : Session) :
  is_temp (activeChat (typed_in_new_chat t0 text s)) = true.
Proof. apply JSFacts.prefix_append. Qed.

(** X18. The first message of a new chat. After "New Chat", the new chat
    is first in the list and active, and the active chat is in the list.
    A message typed there is posted without a chat id. When the answer is
    ok, parses to something other than [null] and carries a non-empty chat
    id, the new chat takes that id and becomes active under it, its title
    is the message cut to 50 UTF-16 code units (with "..." when it had
    more), and it holds exactly the user's message and the reply. *)
Theorem first_message_in_new_chat (t0 t t2 : Stamp) (text : string) (s : Session)
    (code : Z) (data : ChatData) (v : string) :
  forallb BuildForm.is_white_space (code_units text) = false ->
  isLoading s = false ->
  ok_status code = true ->
  cd_chat_id data = Val v ->
  v <> "" ->
  let s1 := typed_in_new_chat t0 text s in
  let s' := finish s1 (sendMessage t s1) (Responded code (Json data)) t2 in
  valid_active s1
  /\ (exists request,
        action_sent (sendMessage t s1) = [request]
        /\ req_body request = Some {| cb_message := text; cb_chat_id := None |})
  /\ activeChat s' = Some v
  /\ exists reply rest,
       chats (view s')
       = {| chat_id := v; chat_title := title_of text;
            chat_messages := [userMessage t s1; reply];
            chat_createdAt := iso_now t0 |} :: rest
       /\ msg_role reply = assistant
       /\ msg_content reply = cd_response data
       /\ length rest = length (chats (view s))
       /\ code_units (title_of text)
          = (firstn 50 (code_units text)
             ++ (if (50 <? length (code_units text))%nat then code_units "..." else []))%list.
Proof.
  intros Hb Hl Hok Hid Hv s1 s'.
  assert (Hb1 : blank (input s1) = false) by (rewrite blank_spec; exact Hb).
  assert (Hl1 : isLoading s1 = false) by exact Hl.
  assert (Htruthy : truthy_str (cd_chat_id data) = true).
  { rewrite Hid. simpl. now rewrite bool_decide_eq_false_2. }
  assert (Htemp : is_temp (activeChat s1) = true) by apply new_chat_is_temp.
  assert (Hex : existsb (fun chat => bool_decide (Some (chat_id chat) = activeChat s1))
                  (chats (view s1)) = true).
  { unfold s1, typed_in_new_chat, createNewChat. simpl.
    now rewrite bool_decide_eq_true_2. }
  split; [apply list_elem_of_here|]. split; [|split].
  - destruct (sendMessage_guard t s1) as [_ Hsend].
    destruct (Hsend Hb Hl) as [Hsent Hbody]. eexists. split; [exact Hsent|].
    rewrite Hbody, Htemp. reflexivity.
  - unfold s'. rewrite sendMessage_active by assumption.
    rewrite Hok, Hex, Htemp, Htruthy, Hid. reflexivity.
  - unfold s'. rewrite sendMessage_chats_reply by assumption.
    exists (reply t2 (messageIdCounter s1 + 1) data). eexists. split; [|split; [|split]].
    + unfold s1 at 1 7, typed_in_new_chat, createNewChat, in_chat. simpl.
      rewrite bool_decide_eq_true_2 by reflexivity.
      unfold updatedChat. simpl. rewrite Htruthy, Hid. simpl.
      rewrite (filter_cons_False _ (userMessage t s1)) by (intros H'; now apply H').
      rewrite filter_nil. simpl.
      destruct (decide (v = "")); [contradiction|]. reflexivity.
    + reflexivity.
    + reflexivity.
    + split; [now rewrite length_map | apply Utf16Facts.title_of_units].
Qed.

Lemma first_message_in_new_chat_witness :
  forallb BuildForm.is_white_space (code_units "hello") = false
  /\ isLoading one_chat = false
  /\ ok_status 200 = true
  /\ "c42" <> ""
  /\ activeChat (finish (typed_in_new_chat Samples.st0 "hello" one_chat)
                   (sendMessage Samples.st0 (typed_in_new_chat Samples.st0 "hello" one_chat))
                   filed_as_c42 Samples.st0)
     = Some "c42".
Proof.
  assert (Hv : "c42" <> "") by discriminate.
  split; [reflexivity|]. split; [reflexivity|]. split; [reflexivity|]. split; [exact Hv|].
  apply (first_message_in_new_chat Samples.st0 Samples.st0 Samples.st0 "hello" one_chat 200
           {| cd_response := "hi"; cd_plan := None; cd_request_id := Undefined;
              cd_chat_id := Val "c42" |} "c42" eq_refl eq_refl eq_refl eq_refl Hv).
Defined.

End NewChatFacts.

(** ** Message ids *)

Module MessageIds.

Import ChatInterface ChatActions ChatActionsFacts.

Definition dash : Ascii.ascii := Ascii.ascii_of_nat 45.

(** No character of the string is a dash. *)
Fixpoint dashless (s : string) : bool :=
  match s with
  | EmptyString => true
  | String c rest => negb (Ascii.eqb c dash) && dashless rest
  end.

Lemma pretty_N_char_dashless (x : N) : Ascii.eqb (pretty_N_char x) dash = false.
Proof. unfold pretty_N_char. repeat case_match; reflexivity. Qed.

Lemma pretty_N_go_dashless (x : N) (s : string) :
  dashless s = true -> dashless (pretty_N_go x s) = true.
Proof.
  revert s. induction (N.lt_wf_0 x) as [x _ IH]. intros s Hs.
  assert (x = 0 \/ 0 < x)%N as [->|Hpos] by lia.
  - now rewrite pretty_N_go_0.
  - rewrite pretty_N_go_step by exact Hpos. apply IH.
    + now apply N.div_lt.
    + simpl. now rewrite pretty_N_char_dashless.
Qed.

Lemma pretty_Z_dashless (z : Z) : 0 <= z -> dashless (pretty z) = true.
Proof.
  intros Hz. destruct z as [|p|p]; [reflexivity| |lia].
  unfold pretty, pretty_Z, pretty, pretty_positive, pretty, pretty_N.
  destruct (decide (N.pos p = 0%N)); [discriminate|]. now apply pretty_N_go_dashless.
Qed.

Lemma dashed (a b : string) : dashless (a +:+ String dash b) = false.
Proof.
  induction a as [|c a IH]; [reflexivity|].
  change (negb (Ascii.eqb c dash) && dashless (a +:+ String dash b) = false).
  rewrite IH. apply andb_false_r.
Qed.

Lemma after_last_dash (a a' b b' : string) :
  dashless b = true -> dashless b' = true ->
  a +:+ String dash b = a' +:+ String dash b' -> b = b'.
Proof.
  intros Hb Hb'. revert a'. induction a as [|c a IH]; intros [|c' a'] H.
  - now injection H.
  - injection H as _ H. rewrite H, dashed in Hb. discriminate.
  - injection H as _ H. rewrite <- H, dashed in Hb'. discriminate.
  - injection H as _ H. now apply (IH a').
Qed.

Lemma next_message_id_inj (t t' : Stamp) (c c' : Z) :
  0 <= c + 1 -> 0 <= c' + 1 ->
  next_message_id t c = next_message_id t' c' -> c = c'.
Proof.
  intros Hc Hc' H. unfold next_message_id in H.
  assert (Hd : pretty (c + 1) = pretty (c' + 1)).
  { apply (after_last_dash ("msg-" +:+ pretty (date_now t)) ("msg-" +:+ pretty (date_now t')));
      [now apply pretty_Z_dashless | now apply pretty_Z_dashless |].
    exact H. }
  apply (inj pretty) in Hd. lia.
Qed.

(** X19. The user's message is shown once. With the message counter at
    its start value or above, after an ok reply every chat with the active
    id holds exactly one message with the id of the user's message: the
    copy added while waiting was replaced, and the reply, whose id is built
    from the next counter value, cannot have the same id whatever the
    clock reads. *)
Theorem user_message_shown_once (t t2 : Stamp) (s : Session) (code : Z) (data : ChatData) :
  forallb BuildForm.is_white_space (code_units (input s)) = false ->
  isLoading s = false ->
  ok_status code = true ->
  0 <= messageIdCounter s ->
  let s' := finish s (sendMessage t s) (Responded code (Json data)) t2 in
  Forall2 (fun c c' =>
             if bool_decide (Some (chat_id c) = activeChat s) then
               length (filter (fun m => msg_id m = msg_id (userMessage t s)) (chat_messages c'))
               = 1%nat
             else c' = c)
          (chats (view s)) (chats (view s')).
Proof.
  intros Hb Hl Hok Hcounter s'. rewrite <- blank_spec in Hb.
  unfold s'. rewrite sendMessage_chats_reply by assumption.
  eapply Forall2_impl; [apply in_chat_Forall2|].
  intros c c' ->. case_bool_decide; [|reflexivity].
  cbn [updatedChat chat_messages append_message with_messages].
  rewrite !filter_app.
  rewrite (filter_cons_False _ (userMessage t s)) by (intros H'; now apply H').
  rewrite filter_nil, app_nil_r.
  assert (Hnone : filter (fun m => msg_id m = msg_id (userMessage t s))
                    (filter (fun m => msg_id m <> msg_id (userMessage t s)) (chat_messages c))
                  = []).
  { induction (chat_messages c) as [|m ms IH]; [reflexivity|].
    rewrite (filter_cons (fun m => msg_id m <> _)). case_decide as Hm; [|exact IH].
    rewrite filter_cons_False by exact Hm. exact IH. }
  rewrite Hnone. simpl.
  rewrite filter_cons_True by reflexivity.
  rewrite filter_cons_False; [reflexivity|].
  simpl. intros Hsame. apply next_message_id_inj in Hsame; lia.
Qed.

Lemma user_message_shown_once_witness :
  forallb BuildForm.is_white_space (code_units (input two_chats)) = false
  /\ isLoading two_chats = false
  /\ ok_status 200 = true
  /\ 0 <= messageIdCounter two_chats
  /\ length (chats (view (finish two_chats (sendMessage Samples.st0 two_chats)
                            filed_as_c42 Samples.st0)))
     = 2%nat.
Proof.
  assert (Hcounter : 0 <= messageIdCounter two_chats) by reflexivity.
  split; [reflexivity|]. split; [reflexivity|]. split; [reflexivity|].
  split; [exact Hcounter|].
  pose proof (user_message_shown_once Samples.st0 Samples.st0 two_chats 200
                {| cd_response := "hi"; cd_plan := None; cd_request_id := Undefined;
                   cd_chat_id := Val "c42" |} eq_refl eq_refl eq_refl Hcounter) as H.
  apply Forall2_length in H. symmetry. exact H.
Defined.

End MessageIds.
